(** * LamndaCostWatchdog: the scheduled AWS cost-hygiene handler

    A shallow embedding of [src/LamndaCostWatchdog.py].

    Conventions of the embedding.
    - Python [str] values are byte strings (UTF-8), [int]s are [Z].
    - Python [float]s are idealised as exact rationals [Q]: the model computes
      what the source computes up to binary64 rounding, which it does not
      represent.
    - An aware [datetime] is its number of microseconds since the Unix epoch,
      a [timedelta] a number of microseconds.  The timestamps in the
      collaborator's responses are aware datetimes, as boto3 delivers them.
    - The AWS clients are one collaborator: an arbitrary transition system that
      answers every API call with a response or with an exception.  The
      handler is a program in a state-and-exception monad over it; the
      sequence of calls it issues and the warnings it logs are recorded. *)

From Stdlib Require Import ZArith QArith Qabs Qround String Ascii List Bool.
From Stdlib Require Import DecimalString Permutation Sorted Lia Lqa.
Import ListNotations.

Local Open Scope string_scope.
Local Open Scope Z_scope.

(** ** Python text helpers *)

(** The newline character, Python's ["\n"]. *)
Definition nl : string := String (ascii_of_nat 10) EmptyString.

(** [str(n)] of an [int]. *)
Definition str_of_Z (z : Z) : string := NilZero.string_of_int (Z.to_int z).

Definition str_of_nat (n : nat) : string := str_of_Z (Z.of_nat n).

(** [sep.join(l)]. *)
Definition join (sep : string) (l : list string) : string := String.concat sep l.

(** Decimal digits of [z >= 0], left-padded with zeros to [width] characters. *)
Definition zero_pad (width : nat) (z : Z) : string :=
  let s := str_of_Z z in
  String.concat "" (repeat "0" (width - String.length s)) ++ s.

(** Rounding to the nearest integer, ties to even: how the [f] presentation
    type rounds the exact value of its argument. *)
Definition round_half_even (q : Q) : Z :=
  let n := Qnum q in
  let d := Zpos (Qden q) in
  let f := n / d in
  let r := n mod d in
  match 2 * r ?= d with
  | Lt => f
  | Gt => f + 1
  | Eq => if Z.even f then f else f + 1
  end.

(** [format(x, '.<digits>f')]: sign, integer part, point, [digits] decimals. *)
Definition format_f (digits : nat) (x : Q) : string :=
  let scale := 10 ^ Z.of_nat digits in
  let scaled := round_half_even (Qabs x * inject_Z scale) in
  let body :=
    match digits with
    | O => str_of_Z scaled
    | _ => str_of_Z (scaled / scale) ++ "." ++ zero_pad digits (scaled mod scale)
    end in
  if Qlt_le_dec x 0 then "-" ++ body else body.

(** [int(x)] of a number: truncation towards zero. *)
Definition py_int (x : Q) : Z := Z.quot (Qnum x) (Zpos (Qden x)).

(** Two hexadecimal digits of a byte, for [\xNN] escapes. *)
Definition hex_digit (n : nat) : string :=
  String (ascii_of_nat (if Nat.ltb n 10 then 48 + n else 87 + n)) EmptyString.

Definition escape_char (quote : ascii) (c : ascii) : string :=
  let n := nat_of_ascii c in
  if Ascii.eqb c "\" then "\\"
  else if Ascii.eqb c quote then String "\" (String c EmptyString)
  else if Nat.eqb n 10 then "\n"
  else if Nat.eqb n 13 then "\r"
  else if Nat.eqb n 9 then "\t"
  else if Nat.ltb n 32 || Nat.eqb n 127
       then "\x" ++ hex_digit (Nat.div n 16) ++ hex_digit (Nat.modulo n 16)
  else String c EmptyString.

Fixpoint contains_char (c : ascii) (s : string) : bool :=
  match s with
  | EmptyString => false
  | String a rest => Ascii.eqb a c || contains_char c rest
  end.

Fixpoint escape_string (quote : ascii) (s : string) : string :=
  match s with
  | EmptyString => EmptyString
  | String a rest => escape_char quote a ++ escape_string quote rest
  end.

Definition squote : ascii := ascii_of_nat 39.
Definition dquote : ascii := ascii_of_nat 34.

(** [repr(s)] of a [str]: single quotes, unless the text holds a single quote
    and no double quote. *)
Definition repr_str (s : string) : string :=
  let quote : ascii :=
    if contains_char squote s && negb (contains_char dquote s) then dquote else squote in
  String quote (escape_string quote s) ++ String quote EmptyString.

(** [repr(l)] of a list of [str], as an f-string interpolates it. *)
Definition repr_list (l : list string) : string :=
  "[" ++ join ", " (map repr_str l) ++ "]".

(** [s.replace(old, new)] for a one-character [old]. *)
Fixpoint replace_char (old : ascii) (new : string) (s : string) : string :=
  match s with
  | EmptyString => EmptyString
  | String a rest =>
      (if Ascii.eqb a old then new else String a EmptyString)
        ++ replace_char old new rest
  end.


(** ** Instants and durations *)

Definition us_per_second : Z := 1000000.
Definition us_per_day : Z := 86400 * us_per_second.

(** A normalised [datetime.timedelta]: [0 <= seconds < 86400] and
    [0 <= microseconds < 10^6], the sign carried by [days] alone. *)
Record timedelta := mk_timedelta { days : Z; seconds : Z; microseconds : Z }.

Definition timedelta_of_us (us : Z) : timedelta :=
  {| days := us / us_per_day;
     seconds := (us mod us_per_day) / us_per_second;
     microseconds := us mod us_per_second |}.

(** A [datetime]: aware (an instant, in microseconds since the epoch) or
    naive (a wall-clock reading without a time zone). *)
Inductive datetime : Type :=
| Aware (t : Z)
| Naive (wall : Z).

(** [a - b] of two aware datetimes. *)
Definition datetime_sub (a b : Z) : timedelta := timedelta_of_us (a - b).

(** [datetime.timedelta(days=n)], in microseconds. *)
Definition timedelta_days (n : Z) : Z := n * us_per_day.

(** [t.strftime('%Y-%m-%d')] of a UTC instant (proleptic Gregorian calendar). *)
Definition strftime_Ymd (t : Z) : string :=
  let z := t / us_per_day + 719468 in
  let era := z / 146097 in
  let doe := z - era * 146097 in
  let yoe := (doe - doe / 1460 + doe / 36524 - doe / 146096) / 365 in
  let doy := doe - (365 * yoe + yoe / 4 - yoe / 100) in
  let mp := (5 * doy + 2) / 153 in
  let d := doy - (153 * mp + 2) / 5 + 1 in
  let m := if mp <? 10 then mp + 3 else mp - 9 in
  let y := yoe + era * 400 + (if m <=? 2 then 1 else 0) in
  zero_pad 4 y ++ "-" ++ zero_pad 2 m ++ "-" ++ zero_pad 2 d.

(** ** Numbers *)

Definition Qlt_bool (x y : Q) : bool := negb (Qle_bool y x).

(** [sum(l)] of numbers. *)
Definition Qsum (l : list Q) : Q := fold_left Qplus l 0%Q.

(** ** Configuration (module-level constants read from the environment) *)

Record Config := {
  SNS_TOPIC_ARN : string;
  SNAPSHOT_RETENTION_DAYS : Z;
  LOW_CPU_THRESHOLD : Q;
  CLEANUP_UNTAGGED_AFTER_DAYS : Z
}.

(** The values used when no environment variable is set. *)
Definition default_config : Config := {|
  SNS_TOPIC_ARN := "arn:aws:sns:us-east-1:15159149893:aws-daily-cleanup-report";
  SNAPSHOT_RETENTION_DAYS := 30;
  LOW_CPU_THRESHOLD := 5;
  CLEANUP_UNTAGGED_AFTER_DAYS := 7
|}.

(** ** Exceptions *)

Inductive Exn : Type :=
| ClientError (msg : string)   (* a declared error of the AWS collaborator *)
| KeyError (key : string)
| IndexError (msg : string)
| ValueError (msg : string)
| TypeError (msg : string).

(** [str(e)], as the warnings interpolate it. *)
Definition str_exn (e : Exn) : string :=
  match e with
  | ClientError msg => msg
  | KeyError key => repr_str key
  | IndexError msg => msg
  | ValueError msg => msg
  | TypeError msg => msg
  end.

Inductive result (A : Type) : Type :=
| Ok (a : A)
| Raise (e : Exn).

Arguments Ok {A} a.
Arguments Raise {A} e.

(** ** Responses of the AWS collaborator

    A record has the keys the handler indexes; a key the handler reads with
    [.get] or tests with [in] is optional. *)

Record Instance := {
  InstanceId : string;
  State_Name : string;              (* instance['State']['Name'] *)
  SecurityGroups : list string      (* the GroupId of each attached group *)
}.

Record Reservation := { Instances : list Instance }.

Record Volume := {
  VolumeId : string;
  Tags : option (list (string * string));
  CreateTime : Z;
  State : string
}.

Record Address := {
  AllocationId : string;
  Address_InstanceId : option string   (* the 'InstanceId' key, when present *)
}.

Record Bucket := { Name : string }.

Record ObjectListing := { KeyCount : option Z }.

Record Datapoint := { Average : Q; Sum : Q }.

Record MetricStatistics := { Datapoints : option (list Datapoint) }.

Record DBInstance := {
  DBInstanceIdentifier : string;
  DBInstanceStatus : string
}.

Record Snapshot := { SnapshotId : string; StartTime : Z }.

Record SecurityGroup := { GroupId : string; GroupName : string }.

Record LoadBalancer := {
  LoadBalancerArn : string;
  LoadBalancerName : string
}.

Record TargetGroups := { TargetGroupArns : list string }.

Record LogGroup := {
  logGroupName : string;
  retentionInDays : option Z
}.

Record CostGroup := {
  Keys : list string;
  BlendedCost_Amount : string       (* group['Metrics']['BlendedCost']['Amount'] *)
}.

Record ResultByTime := { Groups : list CostGroup }.

(** ** Calls to the collaborator, indexed by the type of their response *)

Definition Filters := list (string * list string).
Definition Dimensions := list (string * string).

Inductive Call : Type -> Type :=
| DescribeInstances (filters : Filters) : Call (list Reservation)
| TerminateInstances (InstanceIds : list string) : Call unit
| DescribeVolumes (filters : Filters) : Call (list Volume)
| DeleteVolume (VolumeId : string) : Call unit
| DescribeAddresses : Call (list Address)
| ReleaseAddress (AllocationId : string) : Call unit
| ListBuckets : Call (option (list Bucket))
| ListObjectsV2 (Bucket : string) : Call ObjectListing
| DeleteBucket (Bucket : string) : Call unit
| GetMetricStatistics (Namespace MetricName : string) (dimensions : Dimensions)
    (StartTime EndTime Period : Z) (Statistics : list string) : Call MetricStatistics
| DescribeDBInstances : Call (list DBInstance)
| DescribeSnapshots (OwnerIds : list string) : Call (list Snapshot)
| DeleteSnapshot (SnapshotId : string) : Call unit
| DescribeSecurityGroups : Call (list SecurityGroup)
| DeleteSecurityGroup (GroupId : string) : Call unit
| DescribeLoadBalancers : Call (list LoadBalancer)
| DescribeTargetGroups (LoadBalancerArn : string) : Call TargetGroups
| DeleteLoadBalancer (LoadBalancerArn : string) : Call unit
| DescribeLogGroups : Call (list LogGroup)
| PutRetentionPolicy (logGroupName : string) (retentionInDays : Z) : Call unit
| GetCostAndUsage (Start End : string) : Call (list ResultByTime)
| Publish (TopicArn Message Subject : string) : Call unit.

(** A call as it appears in the trace of an invocation. *)
Record Issued := issued { response_type : Type; the_call : Call response_type }.

Arguments issued {response_type} the_call.

(** The calls that delete, terminate, release or update a resource. *)
Definition mutating {A : Type} (c : Call A) : bool :=
  match c with
  | TerminateInstances _ | DeleteVolume _ | ReleaseAddress _ | DeleteBucket _
  | DeleteSnapshot _ | DeleteSecurityGroup _ | DeleteLoadBalancer _
  | PutRetentionPolicy _ _ => true
  | _ => false
  end.

(** The collaborator: any state type, any answer to any call in any state,
    and a clock. *)
Record Collaborator (W : Type) := {
  respond : forall A : Type, Call A -> W -> result A * W;
  utcnow : W -> Z
}.

Arguments respond {W} c {A}.
Arguments utcnow {W} c.

(** A collaborator without state: its answers depend on the call alone, and
    its clock stands still. *)
Definition oracle (now : Z) (answer : forall A : Type, Call A -> result A)
  : Collaborator unit :=
  {| respond := fun A c _ => (answer A c, tt); utcnow := fun _ => now |}.

(** Library functions of Python that the model leaves abstract. *)
Record Python := {
  fromisoformat : string -> option datetime;   (* [None]: a ValueError *)
  float_of_str : string -> option Q;    (* [float(s)]; [None]: a ValueError *)
  repr_float : Q -> string
}.

Inductive Level := INFO | WARNING.

(** [l.append(x)]. *)
Definition list_append {A : Type} (l : list A) (x : A) : list A := (l ++ [x])%list.

(** ** The state-and-exception monad of an invocation *)

Record St (W : Type) := mk_St {
  world : W;                          (* the collaborator's state *)
  calls : list Issued;                (* the calls issued so far, oldest first *)
  log : list (Level * string)         (* what the logger received *)
}.

Arguments mk_St {W}.
Arguments world {W}.
Arguments calls {W}.
Arguments log {W}.

Definition M (W A : Type) : Type := St W -> result A * St W.

Definition ret {W A : Type} (a : A) : M W A := fun s => (Ok a, s).

Definition bind {W A B : Type} (m : M W A) (k : A -> M W B) : M W B :=
  fun s =>
    match m s with
    | (Ok a, s') => k a s'
    | (Raise e, s') => (Raise e, s')
    end.

Definition raise {W A : Type} (e : Exn) : M W A := fun s => (Raise e, s).

(** [try: body except Exception as e: handler(e)]. *)
Definition try_except {W A : Type} (body : M W A) (handler : Exn -> M W A) : M W A :=
  fun s =>
    match body s with
    | (Ok a, s') => (Ok a, s')
    | (Raise e, s') => handler e s'
    end.

Declare Scope monad_scope.
Delimit Scope monad_scope with monad.

Notation "x <- c1 ;; c2" := (bind c1 (fun x => c2))
  (at level 61, c1 at next level, right associativity) : monad_scope.
Notation "' pat <- c1 ;; c2" := (bind c1 (fun x => match x with pat => c2 end))
  (at level 61, pat pattern, c1 at next level, right associativity) : monad_scope.
Notation "c1 ;; c2" := (bind c1 (fun _ => c2))
  (at level 61, right associativity) : monad_scope.

Local Open Scope monad_scope.

(** [for x in l: acc = body(acc, x)], the loop variables threaded as [acc]. *)
Fixpoint for_each {W A B : Type} (l : list A) (acc : B) (body : B -> A -> M W B)
  : M W B :=
  match l with
  | [] => ret acc
  | x :: rest => acc' <- body acc x ;; for_each rest acc' body
  end.

Definition logger {W : Type} (level : Level) (msg : string) : M W unit :=
  fun s => (Ok tt, {| world := world s; calls := calls s;
                      log := list_append (log s) (level, msg) |}).

(** [d[key]] on an optional key. *)
Definition getitem {W A : Type} (key : string) (o : option A) : M W A :=
  match o with
  | Some a => ret a
  | None => raise (KeyError key)
  end.

(** [d.get(key, default)]. *)
Definition get_default {A : Type} (o : option A) (default : A) : A :=
  match o with
  | Some a => a
  | None => default
  end.

(** ** The handler *)

Section Handler.

Context {W : Type}.
Variable aws : Collaborator W.
Variable py : Python.
Variable cfg : Config.

(** One client call: recorded in the trace, answered by the collaborator. *)
Definition call {A : Type} (c : Call A) : M W A :=
  fun s =>
    let (r, w') := respond aws c (world s) in
    (r, {| world := w'; calls := list_append (calls s) (issued c); log := log s |}).

(** [datetime.datetime.now(datetime.timezone.utc)]. *)
Definition now_utc : M W Z := fun s => (Ok (utcnow aws (world s)), s).

(** The argument of [get_resource_age]: a [str] or a [datetime]. *)
Inductive creation_date := DateStr (s : string) | DateTime (d : datetime).

Definition get_resource_age (creation_date : creation_date) : M W Z :=
  creation_date <-
    match creation_date with
    | DateStr s =>
        match fromisoformat py (replace_char "Z" "+00:00" s) with
        | Some d => ret d
        | None => raise (ValueError "Invalid isoformat string")
        end
    | DateTime d => ret d
    end ;;
  now <- now_utc ;;
  match creation_date with
  | Aware t => ret (days (datetime_sub now t))
  | Naive _ =>
      raise (TypeError "can't subtract offset-naive and offset-aware datetimes")
  end.

(** [publish_sns(message, subject)]. *)
Definition publish_sns (message subject : string) : M W unit :=
  if negb (String.eqb (SNS_TOPIC_ARN cfg) "") then
    call (Publish (SNS_TOPIC_ARN cfg) message subject)
  else
    logger INFO "No SNS topic configured; skipping notification.".

(** [cost_savings += amount]. *)
Definition add_savings (cost_savings amount : Q) : Q := (cost_savings + amount)%Q.

(** *** 1. Terminate stopped EC2 instances *)
Definition step1 (summary : list string) : M W (list string) :=
  instances <- call (DescribeInstances []) ;;
  let stopped :=
    flat_map (fun reservation =>
      flat_map (fun instance =>
        if String.eqb (State_Name instance) "stopped"
        then [InstanceId instance] else [])
        (Instances reservation))
      instances in
  match stopped with
  | _ :: _ =>
      call (TerminateInstances stopped) ;;
      ret (list_append summary ("Terminated stopped EC2 instances: " ++ repr_list stopped))
  | [] => ret (list_append summary ("No stopped EC2 instances found."))
  end.

(** *** 2. Delete unattached EBS volumes *)
Definition step2 (summary : list string) : M W (list string) :=
  volumes <- call (DescribeVolumes [("status", ["available"])]) ;;
  let unused_volumes := map VolumeId volumes in
  match unused_volumes with
  | _ :: _ =>
      for_each unused_volumes tt (fun _ vid => call (DeleteVolume vid)) ;;
      ret (list_append summary ("Deleted unused EBS volumes: " ++ repr_list unused_volumes))
  | [] => ret (list_append summary ("No unattached EBS volumes found."))
  end.

(** *** 3. Release unused Elastic IPs *)
Definition step3 (summary : list string) : M W (list string) :=
  addresses <- call DescribeAddresses ;;
  let unattached_eips :=
    flat_map (fun a =>
      match Address_InstanceId a with
      | None => [AllocationId a]
      | Some _ => []
      end) addresses in
  match unattached_eips with
  | _ :: _ =>
      for_each unattached_eips tt (fun _ alloc => call (ReleaseAddress alloc)) ;;
      ret (list_append summary ("Released unused Elastic IPs: " ++ repr_list unattached_eips))
  | [] => ret (list_append summary ("No unattached Elastic IPs found."))
  end.

(** *** 4. Delete empty S3 buckets *)
Definition step4_bucket (summary : list string) (bucket : Bucket) : M W (list string) :=
  let name := Name bucket in
  try_except
    (objs <- call (ListObjectsV2 name) ;;
     if get_default (KeyCount objs) 0 =? 0 then
       call (DeleteBucket name) ;;
       ret (list_append summary ("Deleted empty S3 bucket: " ++ name))
     else ret summary)
    (fun e =>
       logger WARNING ("Could not check/delete bucket " ++ name ++ ": " ++ str_exn e) ;;
       ret summary).

Definition step4 (summary : list string) : M W (list Bucket * list string) :=
  response <- call ListBuckets ;;
  let buckets := get_default response [] in
  summary <- for_each buckets summary step4_bucket ;;
  ret (buckets, summary).

(** *** 5. Check EC2 usage (Free Tier 750 hours per month) *)
Definition ec2_usage_line (instance_hours : Z) : string :=
  if instance_hours >? 750 then
    "⚠️ EC2 usage likely exceeds Free Tier (estimated " ++ str_of_Z instance_hours ++ " hours)."
  else
    "EC2 usage within free-tier limits (" ++ str_of_Z instance_hours ++ " hours est.).".

(** Returns [now] and [start], which steps 6 and 7 read. *)
Definition step5 (summary : list string) : M W (Z * Z * list string) :=
  now <- now_utc ;;
  let start := now - timedelta_days 30 in
  call (GetMetricStatistics "AWS/EC2" "CPUUtilization" [] start now 86400 ["Average"]) ;;
  running_instances <-
    call (DescribeInstances [("instance-state-name", ["running"])]) ;;
  let instance_hours := Z.of_nat (length running_instances) * 24 * 30 in
  ret (now, start, list_append summary (ec2_usage_line instance_hours)).

(** *** 6. Check S3 usage (Free Tier 5 GB) *)
Definition step6_bucket (start now : Z) (total_storage_gb : Q) (bucket : Bucket)
  : M W Q :=
  let name := Name bucket in
  try_except
    (metrics <- call (GetMetricStatistics "AWS/S3" "BucketSizeBytes"
                        [("BucketName", name); ("StorageType", "StandardStorage")]
                        start now 86400 ["Average"]) ;;
     datapoints <- getitem "Datapoints" (Datapoints metrics) ;;
     match datapoints with
     | first :: _ =>
         let bytes_used := Average (last datapoints first) in
         ret (total_storage_gb + bytes_used / inject_Z (1024 ^ 3))%Q
     | [] => ret total_storage_gb
     end)
    (fun e =>
       logger WARNING ("Could not get S3 metrics for " ++ name ++ ": " ++ str_exn e) ;;
       ret total_storage_gb).

Definition s3_usage_line (total_storage_gb : Q) : string :=
  if Qlt_bool 5 total_storage_gb then
    "⚠️ S3 storage exceeds free tier: " ++ format_f 2 total_storage_gb ++ " GB"
  else
    "S3 storage within free tier: " ++ format_f 2 total_storage_gb ++ " GB".

Definition step6 (buckets : list Bucket) (start now : Z) (summary : list string)
  : M W (list string) :=
  total_storage_gb <- for_each buckets 0%Q (step6_bucket start now) ;;
  ret (list_append summary (s3_usage_line total_storage_gb)).

(** *** 7. Check Lambda usage (Free Tier: 1M requests) *)
Definition lambda_usage_line (total_invocations : Q) : string :=
  if Qlt_bool 1000000 total_invocations then
    "⚠️ Lambda usage exceeded free tier: "
      ++ str_of_Z (py_int total_invocations) ++ " invocations."
  else
    "Lambda usage within free tier: "
      ++ str_of_Z (py_int total_invocations) ++ " invocations.".

Definition step7 (start now : Z) (summary : list string) : M W (list string) :=
  metrics <- call (GetMetricStatistics "AWS/Lambda" "Invocations" []
                     start now 86400 ["Sum"]) ;;
  let total_invocations := Qsum (map Sum (get_default (Datapoints metrics) [])) in
  ret (list_append summary (lambda_usage_line total_invocations)).

(** *** 8. Check RDS free-tier usage (750 hours/month) *)
Definition rds_usage_line (rds_hours : Z) : string :=
  if rds_hours >? 750 then
    "⚠️ RDS usage likely exceeds Free Tier (" ++ str_of_Z rds_hours ++ " hours est.)."
  else
    "RDS usage within free tier (" ++ str_of_Z rds_hours ++ " hours est.).".

Definition step8 (summary : list string) : M W (list string) :=
  rds_instances <- call DescribeDBInstances ;;
  let active_rds :=
    map DBInstanceIdentifier
      (filter (fun r => String.eqb (DBInstanceStatus r) "available") rds_instances) in
  let rds_hours := Z.of_nat (length active_rds) * 24 * 30 in
  ret (list_append summary (rds_usage_line rds_hours)).

(** *** 9. Delete old EBS snapshots *)
Definition step9_snapshot (old_snapshots : list string) (snap : Snapshot)
  : M W (list string) :=
  age <- get_resource_age (DateTime (Aware (StartTime snap))) ;;
  if age >? SNAPSHOT_RETENTION_DAYS cfg then
    let old_snapshots := list_append old_snapshots (SnapshotId snap) in
    try_except
      (call (DeleteSnapshot (SnapshotId snap)))
      (fun e =>
         logger WARNING ("Could not delete snapshot " ++ SnapshotId snap
                           ++ ": " ++ str_exn e)) ;;
    ret old_snapshots
  else ret old_snapshots.

Definition old_snapshots_line (n : nat) : string :=
  "Deleted " ++ str_of_nat n ++ " old snapshots (>"
    ++ str_of_Z (SNAPSHOT_RETENTION_DAYS cfg) ++ " days)".

(** ~$0.05 per GB-month. *)
Definition snapshot_saving : Q := 0.05.

Definition step9 (summary : list string) (cost_savings : Q)
  : M W (list string * Q) :=
  snapshots <- call (DescribeSnapshots ["self"]) ;;
  old_snapshots <- for_each snapshots [] step9_snapshot ;;
  match old_snapshots with
  | _ :: _ =>
      ret (list_append summary (old_snapshots_line (length old_snapshots)),
           add_savings cost_savings
             (inject_Z (Z.of_nat (length old_snapshots)) * snapshot_saving))
  | [] => ret (summary, cost_savings)
  end.

(** *** 10. Remove unused security groups *)
Definition set_mem (x : string) (s : list string) : bool := existsb (String.eqb x) s.

Definition set_add (x : string) (s : list string) : list string :=
  if set_mem x s then s else x :: s.

Definition step10_group (used_sgs : list string) (unused_sgs : list string)
  (sg : SecurityGroup) : M W (list string) :=
  if negb (String.eqb (GroupName sg) "default") && negb (set_mem (GroupId sg) used_sgs)
  then
    try_except
      (call (DeleteSecurityGroup (GroupId sg)) ;;
       ret (list_append unused_sgs (GroupId sg)))
      (fun e =>
         logger WARNING ("Could not delete security group " ++ GroupId sg
                           ++ ": " ++ str_exn e) ;;
         ret unused_sgs)
  else ret unused_sgs.

Definition unused_sgs_line (n : nat) : string :=
  "Deleted " ++ str_of_nat n ++ " unused security groups".

Definition step10 (summary : list string) : M W (list string) :=
  security_groups <- call DescribeSecurityGroups ;;
  instances <- call (DescribeInstances []) ;;
  let used_sgs :=
    fold_left (fun used_sgs reservation =>
      fold_left (fun used_sgs instance =>
        if negb (String.eqb (State_Name instance) "terminated")
        then fold_left (fun used_sgs sg => set_add sg used_sgs)
               (SecurityGroups instance) used_sgs
        else used_sgs)
        (Instances reservation) used_sgs)
      instances [] in
  unused_sgs <- for_each security_groups [] (step10_group used_sgs) ;;
  match unused_sgs with
  | _ :: _ => ret (list_append summary (unused_sgs_line (length unused_sgs)))
  | [] => ret summary
  end.

(** *** 11. Delete unused load balancers *)

(** ~$18.25/month per ALB. *)
Definition load_balancer_saving : Q := 18.25.

Definition step11_balancer (acc : list string * Q) (lb : LoadBalancer)
  : M W (list string * Q) :=
  let '(unused_lbs, cost_savings) := acc in
  targets <- call (DescribeTargetGroups (LoadBalancerArn lb)) ;;
  match TargetGroupArns targets with
  | [] =>
      try_except
        (call (DeleteLoadBalancer (LoadBalancerArn lb)) ;;
         ret (list_append unused_lbs (LoadBalancerName lb),
              add_savings cost_savings load_balancer_saving))
        (fun e =>
           logger WARNING ("Could not delete load balancer " ++ LoadBalancerName lb
                             ++ ": " ++ str_exn e) ;;
           ret (unused_lbs, cost_savings))
  | _ :: _ => ret (unused_lbs, cost_savings)
  end.

Definition unused_lbs_line (n : nat) : string :=
  "Deleted " ++ str_of_nat n ++ " unused load balancers".

Definition step11 (summary : list string) (cost_savings : Q)
  : M W (list string * Q) :=
  load_balancers <- call DescribeLoadBalancers ;;
  '(unused_lbs, cost_savings) <-
    for_each load_balancers ([], cost_savings) step11_balancer ;;
  match unused_lbs with
  | _ :: _ => ret (list_append summary (unused_lbs_line (length unused_lbs)), cost_savings)
  | [] => ret (summary, cost_savings)
  end.

(** *** 12. Set CloudWatch log retention *)
Definition step12_group (updated_logs : Z) (lg : LogGroup) : M W Z :=
  if match retentionInDays lg with None => true | Some _ => false end
     || (get_default (retentionInDays lg) 0 >? 30)
  then
    try_except
      (call (PutRetentionPolicy (logGroupName lg) 30) ;;
       ret (updated_logs + 1))
      (fun e =>
         logger WARNING ("Could not set retention for " ++ logGroupName lg
                           ++ ": " ++ str_exn e) ;;
         ret updated_logs)
  else ret updated_logs.

Definition retention_line (updated_logs : Z) : string :=
  "Set 30-day retention on " ++ str_of_Z updated_logs ++ " log groups".

Definition step12 (summary : list string) : M W (list string) :=
  log_groups <- call DescribeLogGroups ;;
  updated_logs <- for_each log_groups 0 step12_group ;;
  if updated_logs >? 0 then
    ret (list_append summary (retention_line updated_logs))
  else ret summary.

(** *** 13. Identify low-utilization instances *)
Definition mean (samples : list Q) : Q :=
  (Qsum samples / inject_Z (Z.of_nat (length samples)))%Q.

Definition low_cpu_entry (instance_id : string) (avg_cpu : Q) : string :=
  instance_id ++ " (" ++ format_f 1 avg_cpu ++ "% CPU)".

Definition step13_instance (start now : Z) (low_cpu_instances : list string)
  (instance : Instance) : M W (list string) :=
  let instance_id := InstanceId instance in
  try_except
    (metrics <- call (GetMetricStatistics "AWS/EC2" "CPUUtilization"
                        [("InstanceId", instance_id)]
                        start now 86400 ["Average"]) ;;
     datapoints <- getitem "Datapoints" (Datapoints metrics) ;;
     match datapoints with
     | _ :: _ =>
         let avg_cpu := mean (map Average datapoints) in
         if Qlt_bool avg_cpu (LOW_CPU_THRESHOLD cfg) then
           ret (list_append low_cpu_instances (low_cpu_entry instance_id avg_cpu))
         else ret low_cpu_instances
     | [] => ret low_cpu_instances
     end)
    (fun e =>
       logger WARNING ("Could not get CPU metrics for " ++ instance_id
                         ++ ": " ++ str_exn e) ;;
       ret low_cpu_instances).

Definition low_cpu_line (low_cpu_instances : list string) : string :=
  "⚠️ Low utilization instances (consider downsizing): " ++ repr_list low_cpu_instances.

(** Returns [now], which step 15 reads. *)
Definition step13 (summary : list string) : M W (Z * list string) :=
  now <- now_utc ;;
  let start := now - timedelta_days 7 in
  running_instances <-
    call (DescribeInstances [("instance-state-name", ["running"])]) ;;
  low_cpu_instances <-
    for_each running_instances [] (fun low_cpu_instances reservation =>
      for_each (Instances reservation) low_cpu_instances
        (step13_instance start now)) ;;
  match low_cpu_instances with
  | _ :: _ =>
      ret (now, list_append summary (low_cpu_line low_cpu_instances))
  | [] => ret (now, summary)
  end.

(** *** 14. Delete untagged resources older than threshold *)
Definition step14_volume (untagged_volumes : list string) (vol : Volume)
  : M W (list string) :=
  match get_default (Tags vol) [] with
  | [] =>
      age <- get_resource_age (DateTime (Aware (CreateTime vol))) ;;
      if age >? CLEANUP_UNTAGGED_AFTER_DAYS cfg then
        if String.eqb (State vol) "available" then
          ret (list_append untagged_volumes (VolumeId vol))
        else ret untagged_volumes
      else ret untagged_volumes
  | _ :: _ => ret untagged_volumes
  end.

Definition untagged_line (n : nat) : string :=
  "⚠️ Found " ++ str_of_nat n ++ " untagged volumes older than "
    ++ str_of_Z (CLEANUP_UNTAGGED_AFTER_DAYS cfg) ++ " days".

Definition step14 (summary : list string) : M W (list string) :=
  volumes <- call (DescribeVolumes []) ;;
  untagged_volumes <- for_each volumes [] step14_volume ;;
  match untagged_volumes with
  | _ :: _ => ret (list_append summary (untagged_line (length untagged_volumes)))
  | [] => ret summary
  end.

(** *** 15. Cost analysis *)

(** [d[key] = value] on a dict kept in insertion order. *)
Fixpoint dict_set (d : list (string * Q)) (key : string) (value : Q)
  : list (string * Q) :=
  match d with
  | [] => [(key, value)]
  | (k, v) :: rest =>
      if String.eqb k key then (k, value) :: rest
      else (k, v) :: dict_set rest key value
  end.

(** [sorted(items, key=lambda x: x[1], reverse=True)]: stable, largest first. *)
Fixpoint insert_desc (x : string * Q) (l : list (string * Q)) : list (string * Q) :=
  match l with
  | [] => [x]
  | y :: rest =>
      if Qle_bool (snd y) (snd x) then x :: l else y :: insert_desc x rest
  end.

Definition sorted_desc (items : list (string * Q)) : list (string * Q) :=
  fold_right insert_desc [] items.

(** [repr(d)] of a dict from [str] to [float]. *)
Definition repr_dict (d : list (string * Q)) : string :=
  "{" ++ join ", " (map (fun kv => repr_str (fst kv) ++ ": " ++ repr_float py (snd kv)) d)
      ++ "}".

Definition top_costs_line (top_costs : list (string * Q)) : string :=
  "Top 5 cost drivers: " ++ repr_dict top_costs.

Definition total_cost_line (total_monthly : Q) : string :=
  "Total monthly cost: $" ++ format_f 2 total_monthly.

Definition step15_group (monthly_costs : list (string * Q)) (group : CostGroup)
  : M W (list (string * Q)) :=
  service <-
    match Keys group with
    | k :: _ => ret k
    | [] => raise (IndexError "list index out of range")
    end ;;
  cost <-
    match float_of_str py (BlendedCost_Amount group) with
    | Some x => ret x
    | None => raise (ValueError "could not convert string to float")
    end ;;
  ret (dict_set monthly_costs service cost).

Definition step15 (now : Z) (summary : list string) : M W (list string) :=
  try_except
    (cost_response <-
       call (GetCostAndUsage (strftime_Ymd (now - timedelta_days 30))
                             (strftime_Ymd now)) ;;
     monthly_costs <-
       for_each cost_response [] (fun monthly_costs result =>
         for_each (Groups result) monthly_costs step15_group) ;;
     let top_costs := firstn 5 (sorted_desc monthly_costs) in
     let summary := list_append summary (top_costs_line top_costs) in
     let total_monthly := Qsum (map snd monthly_costs) in
     ret (list_append summary (total_cost_line total_monthly)))
    (fun e =>
       logger WARNING ("Could not retrieve cost data: " ++ str_exn e) ;;
       ret summary).

(** *** Summary *)

Definition savings_line (cost_savings : Q) : string :=
  nl ++ "💰 Estimated monthly savings: $" ++ format_f 2 cost_savings.

(** The report text of a run that recorded [findings] and saved
    [cost_savings]: the savings line is appended and the lines joined. *)
Definition render (findings : list string) (cost_savings : Q) : string :=
  join nl (list_append findings (savings_line cost_savings)).

(** What the handler returns. *)
Record Response := {
  status : string;
  summary : list string;
  estimated_savings : Q
}.

(** [lambda_handler(event, context)]; neither argument is read. *)
Definition lambda_handler : M W Response :=
  logger INFO "Starting enhanced AWS cost optimization job..." ;;
  let summary := [] in
  let cost_savings := 0%Q in
  summary <- step1 summary ;;
  summary <- step2 summary ;;
  summary <- step3 summary ;;
  '(buckets, summary) <- step4 summary ;;
  '(now, start, summary) <- step5 summary ;;
  summary <- step6 buckets start now summary ;;
  summary <- step7 start now summary ;;
  summary <- step8 summary ;;
  '(summary, cost_savings) <- step9 summary cost_savings ;;
  summary <- step10 summary ;;
  '(summary, cost_savings) <- step11 summary cost_savings ;;
  summary <- step12 summary ;;
  '(now, summary) <- step13 summary ;;
  summary <- step14 summary ;;
  summary <- step15 now summary ;;
  let report := render summary cost_savings in
  let summary := list_append summary (savings_line cost_savings) in
  logger INFO (nl ++ report) ;;
  publish_sns report "AWS Cost Optimization Report" ;;
  ret {| status := "completed"; summary := summary;
         estimated_savings := cost_savings |}.

End Handler.

(** The calls the handler issues inside a [try] block.  No call of the same
    shape is issued outside one: the two unguarded metric queries (steps 5
    and 7) name no dimension, the two guarded ones (steps 6 and 13) do. *)
Definition guarded {A : Type} (c : Call A) : bool :=
  match c with
  | ListObjectsV2 _ | DeleteBucket _ | DeleteSnapshot _ | DeleteSecurityGroup _
  | DeleteLoadBalancer _ | PutRetentionPolicy _ _ | GetCostAndUsage _ _ => true
  | GetMetricStatistics _ _ dimensions _ _ _ _ =>
      match dimensions with [] => false | _ :: _ => true end
  | _ => false
  end.

(** The state an invocation starts in. *)
Definition init {W : Type} (w : W) : St W :=
  {| world := w; calls := []; log := [] |}.

(** ** Accounts to run the handler on *)

Module Scenarios.

(** 2025-11-04T00:00:00Z. *)
Definition t0 : Z := 1762214400 * us_per_second.

Definition days_ago (n : Z) : Z := t0 - timedelta_days n.

(** The accounts below are oracles read at [t0]. *)
Definition frozen (answer : forall A : Type, Call A -> result A) : Collaborator unit :=
  oracle t0 answer.

(** The answers of an account that holds nothing. *)
Definition nothing {A : Type} (c : Call A) : A :=
  match c with
  | DescribeInstances _ => []
  | TerminateInstances _ => tt
  | DescribeVolumes _ => []
  | DeleteVolume _ => tt
  | DescribeAddresses => []
  | ReleaseAddress _ => tt
  | ListBuckets => Some []
  | ListObjectsV2 _ => {| KeyCount := Some 0 |}
  | DeleteBucket _ => tt
  | GetMetricStatistics _ _ _ _ _ _ _ => {| Datapoints := Some [] |}
  | DescribeDBInstances => []
  | DescribeSnapshots _ => []
  | DeleteSnapshot _ => tt
  | DescribeSecurityGroups => []
  | DeleteSecurityGroup _ => tt
  | DescribeLoadBalancers => []
  | DescribeTargetGroups _ => {| TargetGroupArns := [] |}
  | DeleteLoadBalancer _ => tt
  | DescribeLogGroups => []
  | PutRetentionPolicy _ _ => tt
  | GetCostAndUsage _ _ => []
  | Publish _ _ _ => tt
  end.

Definition empty_account : Collaborator unit :=
  frozen (fun A c => Ok (nothing c)).

(** An account whose credentials may not list instances. *)
Definition denied_account : Collaborator unit :=
  frozen (fun A c =>
    match c with
    | DescribeInstances _ => Raise (ClientError "UnauthorizedOperation")
    | c' => Ok (nothing c')
    end).

(** The values of Python's library functions at the texts that occur in
    the accounts below. *)
Definition python : Python := {|
  fromisoformat := fun s =>
    if String.eqb s "2025-11-04T00:00:00+00:00" then Some (Aware t0)
    else if String.eqb s "2025-11-04T00:00:00" then Some (Naive t0)
    else None;
  float_of_str := fun s =>
    if String.eqb s "12.5" then Some 12.5%Q
    else if String.eqb s "3.25" then Some 3.25%Q
    else if String.eqb s "0.0" then Some 0%Q
    else None;
  repr_float := fun x =>
    if Qeq_bool x 12.5 then "12.5"
    else if Qeq_bool x 3.25 then "3.25"
    else if Qeq_bool x 0 then "0.0"
    else format_f 17 x
|}.

Definition GiB : Q := inject_Z (1024 ^ 3).

(** An account with something for every step to find. *)
Module Sample.

Definition i_stopped : Instance :=
  {| InstanceId := "i-stopped"; State_Name := "stopped"; SecurityGroups := ["sg-web"] |}.
Definition i_busy : Instance :=
  {| InstanceId := "i-busy"; State_Name := "running"; SecurityGroups := ["sg-web"] |}.
Definition i_idle : Instance :=
  {| InstanceId := "i-idle"; State_Name := "running"; SecurityGroups := ["sg-web"] |}.
Definition i_silent : Instance :=
  {| InstanceId := "i-silent"; State_Name := "running"; SecurityGroups := [] |}.

Definition vol_stale : Volume :=
  {| VolumeId := "vol-stale"; Tags := None;
     CreateTime := days_ago 8; State := "available" |}.
Definition vol_tagged : Volume :=
  {| VolumeId := "vol-tagged"; Tags := Some [("Name", "db")];
     CreateTime := days_ago 100; State := "available" |}.
Definition vol_week : Volume :=
  {| VolumeId := "vol-week"; Tags := Some [];
     CreateTime := days_ago 7; State := "available" |}.
Definition vol_attached : Volume :=
  {| VolumeId := "vol-attached"; Tags := None;
     CreateTime := days_ago 30; State := "in-use" |}.

Definition snapshots : list Snapshot :=
  [ {| SnapshotId := "snap-31d"; StartTime := days_ago 31 |};
    {| SnapshotId := "snap-30d"; StartTime := days_ago 30 - us_per_second |};
    {| SnapshotId := "snap-400d"; StartTime := days_ago 400 |} ].

Definition answer (A : Type) (c : Call A) : A :=
  match c with
  | DescribeInstances [] =>
      [ {| Instances := [i_stopped; i_busy] |}; {| Instances := [i_idle; i_silent] |} ]
  | DescribeInstances (_ :: _) =>
      [ {| Instances := [i_busy] |}; {| Instances := [i_idle; i_silent] |} ]
  | DescribeVolumes [] => [vol_stale; vol_tagged; vol_week; vol_attached]
  | DescribeVolumes (_ :: _) => [vol_stale; vol_tagged; vol_week]
  | DescribeAddresses =>
      [ {| AllocationId := "eipalloc-free"; Address_InstanceId := None |};
        {| AllocationId := "eipalloc-used"; Address_InstanceId := Some "i-busy" |} ]
  | ListBuckets => Some [ {| Name := "logs" |}; {| Name := "scratch" |} ]
  | ListObjectsV2 name =>
      {| KeyCount := if String.eqb name "logs" then Some 3 else None |}
  | GetMetricStatistics _ _ [(_, id)] _ _ _ _ =>
      if String.eqb id "i-busy" then
        {| Datapoints := Some [ {| Average := 50; Sum := 0 |};
                                {| Average := 70; Sum := 0 |} ] |}
      else if String.eqb id "i-idle" then
        {| Datapoints := Some [ {| Average := 2; Sum := 0 |};
                                {| Average := 3; Sum := 0 |} ] |}
      else {| Datapoints := Some [] |}
  | GetMetricStatistics _ _ ((_, name) :: _ :: _) _ _ _ _ =>
      if String.eqb name "logs" then
        {| Datapoints := Some [ {| Average := 1 * GiB; Sum := 0 |};
                                {| Average := 2 * GiB; Sum := 0 |} ] |}
      else {| Datapoints := Some [] |}
  | GetMetricStatistics _ _ [] _ _ _ _ =>
      {| Datapoints := Some [ {| Average := 0; Sum := 10 |};
                              {| Average := 0; Sum := 20 |} ] |}
  | DescribeDBInstances =>
      [ {| DBInstanceIdentifier := "db-1"; DBInstanceStatus := "available" |};
        {| DBInstanceIdentifier := "db-2"; DBInstanceStatus := "stopped" |} ]
  | DescribeSnapshots _ => snapshots
  | DescribeSecurityGroups =>
      [ {| GroupId := "sg-0"; GroupName := "default" |};
        {| GroupId := "sg-web"; GroupName := "web" |};
        {| GroupId := "sg-orphan"; GroupName := "old" |} ]
  | DescribeLoadBalancers =>
      [ {| LoadBalancerArn := "arn:lb-idle"; LoadBalancerName := "lb-idle" |};
        {| LoadBalancerArn := "arn:lb-live"; LoadBalancerName := "lb-live" |} ]
  | DescribeTargetGroups arn =>
      {| TargetGroupArns := if String.eqb arn "arn:lb-live" then ["arn:tg-1"] else [] |}
  | DescribeLogGroups =>
      [ {| logGroupName := "/aws/lambda/a"; retentionInDays := None |};
        {| logGroupName := "/aws/lambda/b"; retentionInDays := Some 90 |};
        {| logGroupName := "/aws/lambda/c"; retentionInDays := Some 14 |} ]
  | GetCostAndUsage _ _ =>
      [ {| Groups := [ {| Keys := ["Amazon S3"]; BlendedCost_Amount := "3.25" |};
                       {| Keys := ["Amazon EC2"]; BlendedCost_Amount := "12.5" |} ] |} ]
  | c' => nothing c'
  end.

End Sample.

(** Every call succeeds. *)
Definition sample_answer (A : Type) (c : Call A) : result A :=
  Ok (Sample.answer A c).

Definition sample_account : Collaborator unit := frozen sample_answer.

(** The same account, every guarded call refused. *)
Definition flaky_answer (A : Type) (c : Call A) : result A :=
  if guarded c then Raise (ClientError "AccessDenied")
  else Ok (Sample.answer A c).

Definition flaky_account : Collaborator unit := frozen flaky_answer.


End Scenarios.

(** ** Specifications of monadic programs *)

(** [m] returns, in whatever state it is run. *)
Definition completes {W A : Type} (m : M W A) : Prop :=
  forall s, exists a s', m s = (Ok a, s').

(** Whenever [m] returns, its result satisfies [Q]. *)
Definition ensures {W A : Type} (m : M W A) (Q : A -> Prop) : Prop :=
  forall s a s', m s = (Ok a, s') -> Q a.

(** Whether [m] returns or raises, the calls it issues all satisfy [P], and
    it keeps the calls issued before. *)
Definition issues {W A : Type} (P : Issued -> Prop) (m : M W A) : Prop :=
  forall s, exists new, calls (snd (m s)) = (calls s ++ new)%list /\ Forall P new.

(** [full] answers every call, and answers as [flaky] does wherever [flaky]
    answers: the account of [flaky] with every call succeeding. *)
Definition repairs (full flaky : forall A : Type, Call A -> result A) : Prop :=
  forall (A : Type) (c : Call A),
    (exists a, full A c = Ok a) /\
    (forall a, flaky A c = Ok a -> full A c = Ok a).

(** Whenever [m_f] returns, [m] returns too, in whatever state it is run,
    and the two results are related by [R]. *)
Definition refines {Wf W A : Type} (R : A -> A -> Prop) (m_f : M Wf A) (m : M W A)
  : Prop :=
  forall s_f a_f s_f',
    m_f s_f = (Ok a_f, s_f') -> forall s, exists a s', m s = (Ok a, s') /\ R a_f a.

(** The first summary is no longer than the second. *)
Definition shorter (summary_f summary : list string) : Prop :=
  (length summary_f <= length summary)%nat.

(** The collaborator answers every unguarded call with a response. *)
Definition unguarded_calls_succeed {W : Type} (aws : Collaborator W) : Prop :=
  forall (A : Type) (c : Call A) (w : W),
    guarded c = false -> exists a w', respond aws c w = (Ok a, w').

(** ** What each step may add to the findings *)

Definition stopped_lines (l : list string) : Prop :=
  l = ["No stopped EC2 instances found."] \/
  exists ids, ids <> [] /\ l = ["Terminated stopped EC2 instances: " ++ repr_list ids].

Definition volume_lines (l : list string) : Prop :=
  l = ["No unattached EBS volumes found."] \/
  exists ids, ids <> [] /\ l = ["Deleted unused EBS volumes: " ++ repr_list ids].

Definition address_lines (l : list string) : Prop :=
  l = ["No unattached Elastic IPs found."] \/
  exists ids, ids <> [] /\ l = ["Released unused Elastic IPs: " ++ repr_list ids].

(** One line for each bucket deleted, none for the others. *)
Definition bucket_lines (l : list string) : Prop :=
  Forall (fun line => exists name, line = "Deleted empty S3 bucket: " ++ name) l.

Definition ec2_lines (l : list string) : Prop :=
  exists instance_hours, l = [ec2_usage_line instance_hours].

Definition s3_lines (l : list string) : Prop :=
  exists total_storage_gb, l = [s3_usage_line total_storage_gb].

Definition lambda_lines (l : list string) : Prop :=
  exists total_invocations, l = [lambda_usage_line total_invocations].

Definition rds_lines (l : list string) : Prop :=
  exists rds_hours, l = [rds_usage_line rds_hours].

Definition snapshot_lines (cfg : Config) (l : list string) : Prop :=
  l = [] \/ exists n, n <> O /\ l = [old_snapshots_line cfg n].

Definition group_lines (l : list string) : Prop :=
  l = [] \/ exists n, n <> O /\ l = [unused_sgs_line n].

Definition balancer_lines (l : list string) : Prop :=
  l = [] \/ exists n, n <> O /\ l = [unused_lbs_line n].

Definition retention_lines (l : list string) : Prop :=
  l = [] \/ exists n, 0 < n /\ l = [retention_line n].

Definition low_cpu_lines (l : list string) : Prop :=
  l = [] \/ exists entries, entries <> [] /\ l = [low_cpu_line entries].

Definition untagged_lines (cfg : Config) (l : list string) : Prop :=
  l = [] \/ exists n, n <> O /\ l = [untagged_line cfg n].

(** Both lines, or neither. *)
Definition cost_lines (py : Python) (l : list string) : Prop :=
  l = [] \/
  exists top_costs total_monthly,
    l = [top_costs_line py top_costs; total_cost_line total_monthly].

(** The findings of a run: what the fifteen steps added, in step order. *)
Definition findings_shape (py : Python) (cfg : Config) (findings : list string) : Prop :=
  exists l1 l2 l3 l4 l5 l6 l7 l8 l9 l10 l11 l12 l13 l14 l15,
    findings = concat [l1; l2; l3; l4; l5; l6; l7; l8; l9; l10; l11; l12; l13; l14; l15]
    /\ stopped_lines l1 /\ volume_lines l2 /\ address_lines l3 /\ bucket_lines l4
    /\ ec2_lines l5 /\ s3_lines l6 /\ lambda_lines l7 /\ rds_lines l8
    /\ snapshot_lines cfg l9 /\ group_lines l10 /\ balancer_lines l11
    /\ retention_lines l12 /\ low_cpu_lines l13 /\ untagged_lines cfg l14
    /\ cost_lines py l15.

(** [out] is [summary] with the lines [l] appended. *)
Definition extends (summary : list string) (P : list string -> Prop)
  (out : list string) : Prop :=
  exists l, out = (summary ++ l)%list /\ P l.

(** Every step returns, in whatever state it is run. *)
Definition every_step_completes {W : Type} (aws : Collaborator W) (py : Python)
  (cfg : Config) : Prop :=
  (forall summary, completes (step1 aws summary)) /\
  (forall summary, completes (step2 aws summary)) /\
  (forall summary, completes (step3 aws summary)) /\
  (forall summary, completes (step4 aws summary)) /\
  (forall summary, completes (step5 aws summary)) /\
  (forall buckets start now summary, completes (step6 aws buckets start now summary)) /\
  (forall start now summary, completes (step7 aws start now summary)) /\
  (forall summary, completes (step8 aws summary)) /\
  (forall summary cost_savings, completes (step9 aws py cfg summary cost_savings)) /\
  (forall summary, completes (step10 aws summary)) /\
  (forall summary cost_savings, completes (step11 aws summary cost_savings)) /\
  (forall summary, completes (step12 aws summary)) /\
  (forall summary, completes (step13 aws cfg summary)) /\
  (forall summary, completes (step14 aws py cfg summary)) /\
  (forall now summary, completes (step15 aws py now summary)).

(** ** Vocabulary of the claims *)

(** The line of a step that reports a count, absent when the count is zero. *)
Definition counted_line (line : nat -> string) (n : nat) : list string :=
  match n with
  | O => []
  | S _ => [line n]
  end.





(** A volume has no tags, is older than the threshold and is available. *)
Definition untagged_stale (cfg : Config) (now : Z) (vol : Volume) : bool :=
  match get_default (Tags vol) [] with [] => true | _ :: _ => false end
  && (days (datetime_sub now (CreateTime vol)) >? CLEANUP_UNTAGGED_AFTER_DAYS cfg)
  && String.eqb (State vol) "available".

(** ** Vocabulary of the further properties *)


(** Some instance of the listing has identifier [id] and is stopped. *)
Definition stopped_instance (reservations : list Reservation) (id : string) : Prop :=
  exists reservation instance,
    In reservation reservations /\
    In instance (Instances reservation) /\
    InstanceId instance = id /\
    State_Name instance = "stopped".

(** The set [used_sgs] that step 10 builds from the listing of instances. *)
Definition used_security_groups (instances : list Reservation) : list string :=
  fold_left (fun used_sgs reservation =>
    fold_left (fun used_sgs instance =>
      if negb (String.eqb (State_Name instance) "terminated")
      then fold_left (fun used_sgs sg => set_add sg used_sgs)
             (SecurityGroups instance) used_sgs
      else used_sgs)
      (Instances reservation) used_sgs)
    instances [].

(** Some instance of the listing that is not terminated carries group [g]. *)
Definition group_in_use (reservations : list Reservation) (g : string) : Prop :=
  exists reservation instance,
    In reservation reservations /\
    In instance (Instances reservation) /\
    State_Name instance <> "terminated" /\
    In g (SecurityGroups instance).

(** The calls step 10 may issue for the security group [sg]. *)
Definition deletes_unused_group (reservations : list Reservation) (sg : SecurityGroup)
  (chunk : list Issued) : Prop :=
  (chunk = [] /\
   (GroupName sg = "default" \/ group_in_use reservations (GroupId sg)))
  \/
  (chunk = [issued (DeleteSecurityGroup (GroupId sg))] /\
   GroupName sg <> "default" /\
   ~ group_in_use reservations (GroupId sg)).






(** A log group without retention, or with one above 30 days. *)
Definition needs_retention (lg : LogGroup) : bool :=
  match retentionInDays lg with None => true | Some _ => false end
  || (get_default (retentionInDays lg) 0 >? 30).

(** The calls step 12 issues for [lg]. *)
Definition retention_calls (lg : LogGroup) : list Issued :=
  if needs_retention lg then [issued (PutRetentionPolicy (logGroupName lg) 30)] else [].

(** [d.get(key)] on a dict kept in insertion order. *)
Fixpoint dict_get (d : list (string * Q)) (key : string) : option Q :=
  match d with
  | [] => None
  | (k, v) :: rest => if String.eqb k key then Some v else dict_get rest key
  end.

(** The first entry costs at least as much as the second. *)
Definition costlier (a b : string * Q) : Prop := (snd b <= snd a)%Q.

(** A cost group without a key, or whose amount is no number. *)
Definition malformed (py : Python) (group : CostGroup) : Prop :=
  Keys group = [] \/ float_of_str py (BlendedCost_Amount group) = None.

(** A cost group that names a service and carries an amount that parses. *)
Definition well_formed (py : Python) (group : CostGroup) : Prop :=
  exists service others cost,
    Keys group = service :: others /\
    float_of_str py (BlendedCost_Amount group) = Some cost.

(** Some group of the response is keyed by [service]. *)
Definition billed_service (cost_response : list ResultByTime) (service : string) : Prop :=
  exists result group others,
    In result cost_response /\
    In group (Groups result) /\
    Keys group = service :: others.

(** The call is a [publish]. *)
Definition is_publish (c : Issued) : bool :=
  match the_call c with
  | Publish _ _ _ => true
  | _ => false
  end.

(** The size query of step 6 for [bucket]. *)
Definition bucket_size_query (start now : Z) (bucket : Bucket) : Call MetricStatistics :=
  GetMetricStatistics "AWS/S3" "BucketSizeBytes"
    [("BucketName", Name bucket); ("StorageType", "StandardStorage")]
    start now 86400 ["Average"].

(** More accounts and configurations to run the handler on. *)
Module MoreScenarios.

(** No topic configured. *)
Definition silent_config : Config := {|
  SNS_TOPIC_ARN := "";
  SNAPSHOT_RETENTION_DAYS := 30;
  LOW_CPU_THRESHOLD := 5;
  CLEANUP_UNTAGGED_AFTER_DAYS := 7
|}.

(** The sample account, with a topic that refuses every message. *)
Definition mute_account : Collaborator unit :=
  Scenarios.frozen (fun A c =>
    match c with
    | Publish _ _ _ => Raise (ClientError "AuthorizationError")
    | c' => Ok (Scenarios.Sample.answer _ c')
    end).

(** An account whose metric answers carry no list of data points. *)
Definition bare_metrics_account : Collaborator unit :=
  Scenarios.frozen (fun A c =>
    match c with
    | GetMetricStatistics _ _ _ _ _ _ _ => Ok {| Datapoints := None |}
    | c' => Ok (Scenarios.Sample.answer _ c')
    end).

(** An account whose cost report holds a group without a key. *)
Definition keyless_cost_account : Collaborator unit :=
  Scenarios.frozen (fun A c =>
    match c with
    | GetCostAndUsage _ _ =>
        Ok [ {| Groups := [ {| Keys := ["Amazon S3"]; BlendedCost_Amount := "3.25" |};
                            {| Keys := []; BlendedCost_Amount := "12.5" |} ] |} ]
    | c' => Ok (Scenarios.Sample.answer _ c')
    end).

End MoreScenarios.

(** ** Reasoning rules *)

Section Rules.

Context {W : Type}.

Lemma completes_ret {A : Type} (a : A) : completes (@ret W A a).
Proof. intros s. exists a, s. reflexivity. Qed.

Lemma completes_bind {A B : Type} (m : M W A) (k : A -> M W B) :
  completes m -> (forall a, completes (k a)) -> completes (bind m k).
Proof.
  intros Hm Hk s. unfold bind.
  destruct (Hm s) as (a & s1 & E). rewrite E. apply Hk.
Qed.

Lemma completes_try_except {A : Type} (body : M W A) (handler : Exn -> M W A) :
  (forall e, completes (handler e)) -> completes (try_except body handler).
Proof.
  intros Hh s. unfold try_except.
  destruct (body s) as [[a | e] s1].
  - exists a, s1. reflexivity.
  - apply Hh.
Qed.

Lemma completes_for_each {A B : Type} (l : list A) (body : B -> A -> M W B) :
  (forall acc x, completes (body acc x)) ->
  forall acc, completes (for_each l acc body).
Proof.
  intros Hbody. induction l as [| x rest IH]; intros acc; simpl.
  - apply completes_ret.
  - apply completes_bind; [apply Hbody | intros acc'; apply IH].
Qed.

Lemma completes_logger (level : Level) (msg : string) :
  completes (@logger W level msg).
Proof. intros s. eexists _, _. reflexivity. Qed.

Lemma bind_returns {A B : Type} (m : M W A) (k : A -> M W B) (s s' : St W) (b : B) :
  bind m k s = (Ok b, s') ->
  exists a s1, m s = (Ok a, s1) /\ k a s1 = (Ok b, s').
Proof.
  unfold bind. destruct (m s) as [[a | e] s1]; [| discriminate].
  intros E. exists a, s1. split; [reflexivity | exact E].
Qed.

Lemma ensures_ret {A : Type} (a : A) (Q : A -> Prop) : Q a -> ensures (@ret W A a) Q.
Proof. intros HQ s a' s' E. inversion E; subst. exact HQ. Qed.

Lemma ensures_bind {A B : Type} (m : M W A) (k : A -> M W B)
  (P : A -> Prop) (Q : B -> Prop) :
  ensures m P -> (forall a, P a -> ensures (k a) Q) -> ensures (bind m k) Q.
Proof.
  intros Hm Hk s b s' E. unfold bind in E.
  destruct (m s) as [[a | e] s1] eqn:Em; [| discriminate].
  exact (Hk a (Hm _ _ _ Em) _ _ _ E).
Qed.

Lemma ensures_try_except {A : Type} (body : M W A) (handler : Exn -> M W A)
  (Q : A -> Prop) :
  ensures body Q -> (forall e, ensures (handler e) Q) ->
  ensures (try_except body handler) Q.
Proof.
  intros Hb Hh s a s' E. unfold try_except in E.
  destruct (body s) as [[a1 | e] s1] eqn:Eb.
  - inversion E; subst. exact (Hb _ _ _ Eb).
  - exact (Hh e _ _ _ E).
Qed.

Lemma ensures_for_each {A B : Type} (l : list A) (body : B -> A -> M W B)
  (Inv : B -> Prop) :
  (forall acc x, Inv acc -> ensures (body acc x) Inv) ->
  forall acc, Inv acc -> ensures (for_each l acc body) Inv.
Proof.
  intros Hbody. induction l as [| x rest IH]; intros acc Hacc; simpl.
  - apply ensures_ret; exact Hacc.
  - eapply ensures_bind; [apply Hbody; exact Hacc | intros acc' H'; apply IH; exact H'].
Qed.

Lemma ensures_raise {A : Type} (e : Exn) (Q : A -> Prop) : ensures (@raise W A e) Q.
Proof. intros s a s' E. discriminate. Qed.

Lemma ensures_weaken {A : Type} (m : M W A) (P Q : A -> Prop) :
  ensures m P -> (forall a, P a -> Q a) -> ensures m Q.
Proof. intros Hm HPQ s a s' E. apply HPQ. exact (Hm _ _ _ E). Qed.

Lemma ensures_trivial {A : Type} (m : M W A) : ensures m (fun _ => True).
Proof. intros s a s' _. exact I. Qed.

Lemma issues_nothing {A : Type} (P : Issued -> Prop) (m : M W A) :
  (forall s, calls (snd (m s)) = calls s) -> issues P m.
Proof.
  intros H s. exists []. rewrite H, app_nil_r. split; [reflexivity | constructor].
Qed.

Lemma issues_ret {A : Type} (P : Issued -> Prop) (a : A) : issues P (@ret W A a).
Proof. apply issues_nothing. reflexivity. Qed.

Lemma issues_raise {A : Type} (P : Issued -> Prop) (e : Exn) : issues P (@raise W A e).
Proof. apply issues_nothing. reflexivity. Qed.

Lemma issues_logger (P : Issued -> Prop) (level : Level) (msg : string) :
  issues P (@logger W level msg).
Proof. apply issues_nothing. reflexivity. Qed.

Lemma issues_bind {A B : Type} (P : Issued -> Prop) (m : M W A) (k : A -> M W B) :
  issues P m -> (forall a, issues P (k a)) -> issues P (bind m k).
Proof.
  intros Hm Hk s. unfold bind.
  destruct (Hm s) as (n1 & E1 & F1).
  destruct (m s) as [[a | e] s1]; simpl in E1.
  - destruct (Hk a s1) as (n2 & E2 & F2).
    exists (n1 ++ n2)%list. rewrite E2, E1, app_assoc.
    split; [reflexivity | apply Forall_app; split; assumption].
  - exists n1. split; assumption.
Qed.

Lemma issues_try_except {A : Type} (P : Issued -> Prop) (body : M W A)
  (handler : Exn -> M W A) :
  issues P body -> (forall e, issues P (handler e)) -> issues P (try_except body handler).
Proof.
  intros Hb Hh s. unfold try_except.
  destruct (Hb s) as (n1 & E1 & F1).
  destruct (body s) as [[a | e] s1]; simpl in E1.
  - exists n1. split; assumption.
  - destruct (Hh e s1) as (n2 & E2 & F2).
    exists (n1 ++ n2)%list. rewrite E2, E1, app_assoc.
    split; [reflexivity | apply Forall_app; split; assumption].
Qed.

Lemma refines_ret {Wf A : Type} (R : A -> A -> Prop) (a_f a : A) :
  R a_f a -> refines R (@ret Wf A a_f) (@ret W A a).
Proof.
  intros HR s_f a' s_f' E s. inversion E; subst. exists a, s. split; [reflexivity | exact HR].
Qed.

Lemma refines_raise {Wf A : Type} (R : A -> A -> Prop) (e : Exn) (m : M W A) :
  refines R (@raise Wf A e) m.
Proof. intros s_f a_f s_f' E. discriminate. Qed.

Lemma refines_bind {Wf A B : Type} (P : A -> A -> Prop) (Q : B -> B -> Prop)
  (m_f : M Wf A) (m : M W A) (k_f : A -> M Wf B) (k : A -> M W B) :
  refines P m_f m ->
  (forall a_f a, P a_f a -> refines Q (k_f a_f) (k a)) ->
  refines Q (bind m_f k_f) (bind m k).
Proof.
  intros Hm Hk s_f b_f s_f' E s. unfold bind in *.
  destruct (m_f s_f) as [[a_f | e] s1] eqn:Ef; [| discriminate].
  destruct (Hm _ _ _ Ef s) as (a & s' & Em & HP). rewrite Em.
  exact (Hk _ _ HP _ _ _ E s').
Qed.

Lemma refines_weaken {Wf A : Type} (P Q : A -> A -> Prop) (m_f : M Wf A) (m : M W A) :
  refines P m_f m -> (forall a_f a, P a_f a -> Q a_f a) -> refines Q m_f m.
Proof.
  intros Hm HPQ s_f a_f s_f' E s.
  destruct (Hm _ _ _ E s) as (a & s' & Em & HP). exists a, s'. split; [exact Em | auto].
Qed.

(** A program that returns refines any other, up to the trivial relation. *)
Lemma refines_total {Wf A : Type} (m_f : M Wf A) (m : M W A) :
  completes m -> refines (fun _ _ => True) m_f m.
Proof.
  intros Hm s_f a_f s_f' _ s. destruct (Hm s) as (a & s' & E).
  exists a, s'. split; [exact E | exact I].
Qed.

(** Two programs whose outcome does not depend on the state. *)
Lemma refines_pure {Wf A : Type} (m_f : M Wf A) (m : M W A) :
  (forall s_f s, fst (m_f s_f) = fst (m s)) -> refines eq m_f m.
Proof.
  intros H s_f a_f s_f' E s. specialize (H s_f s). rewrite E in H. simpl in H.
  destruct (m s) as [r s'] eqn:Em. simpl in H. subst r.
  exists a_f, s'. split; reflexivity.
Qed.

Lemma refines_for_each {Wf A B : Type} (R : B -> B -> Prop) (l : list A)
  (body_f : B -> A -> M Wf B) (body : B -> A -> M W B) :
  (forall acc_f acc x, R acc_f acc -> refines R (body_f acc_f x) (body acc x)) ->
  forall acc_f acc, R acc_f acc -> refines R (for_each l acc_f body_f) (for_each l acc body).
Proof.
  intros Hbody. induction l as [| x rest IH]; intros acc_f acc HR; simpl.
  - apply refines_ret. exact HR.
  - eapply refines_bind; [apply Hbody; exact HR | intros a_f a Ha; apply IH; exact Ha].
Qed.

(** A [try] whose handler logs a warning and keeps the loop variable: when
    the refined program fell back on its handler, the other one may have
    gone further. *)
Lemma refines_try_keep {Wf A : Type} (R : A -> A -> Prop)
  (body_f : M Wf A) (body : M W A) (msg_f msg : Exn -> string) (acc_f acc : A) :
  refines R body_f body ->
  ensures body (R acc_f) ->
  R acc_f acc ->
  refines R
    (try_except body_f (fun e => bind (logger WARNING (msg_f e)) (fun _ => ret acc_f)))
    (try_except body (fun e => bind (logger WARNING (msg e)) (fun _ => ret acc))).
Proof.
  intros Href Hens Hacc s_f a_f s_f' E s. unfold try_except in *.
  destruct (body_f s_f) as [[a1 | e] s1] eqn:Ef.
  - inversion E; subst. destruct (Href _ _ _ Ef s) as (a & s' & Em & HR).
    rewrite Em. exists a, s'. split; [reflexivity | exact HR].
  - unfold bind, logger, ret in E. inversion E; subst.
    destruct (body s) as [[a | e'] s'] eqn:Em.
    + exists a, s'. split; [reflexivity | exact (Hens _ _ _ Em)].
    + unfold bind, logger, ret. eexists _, _. split; [reflexivity | exact Hacc].
Qed.

Lemma issues_for_each {A B : Type} (P : Issued -> Prop) (l : list A)
  (body : B -> A -> M W B) :
  (forall acc x, issues P (body acc x)) -> forall acc, issues P (for_each l acc body).
Proof.
  intros Hbody. induction l as [| x rest IH]; intros acc; simpl.
  - apply issues_ret.
  - apply issues_bind; [apply Hbody | intros acc'; apply IH].
Qed.

End Rules.

(** ** Properties of the steps *)

Section StepProperties.

Context {W : Type}.
Variable aws : Collaborator W.
Variable py : Python.
Variable cfg : Config.

Ltac ensures_step :=
  repeat first
    [ apply ensures_ret
    | apply ensures_raise
    | apply ensures_try_except; [| intros ?]
    | eapply ensures_bind; [apply ensures_trivial | intros ? _]
    | match goal with
      | |- ensures (match ?x with _ => _ end) _ => destruct x
      end ].

Lemma extends_one (summary : list string) (P : list string -> Prop) (line : string) :
  P [line] -> extends summary P (list_append summary line).
Proof. intros HP. exists [line]. split; [reflexivity | exact HP]. Qed.

Lemma extends_none (summary : list string) (P : list string -> Prop) :
  P [] -> extends summary P summary.
Proof. intros HP. exists []. split; [symmetry; apply app_nil_r | exact HP]. Qed.

Lemma step1_lines (summary : list string) :
  ensures (step1 aws summary) (extends summary stopped_lines).
Proof.
  unfold step1. eapply ensures_bind; [apply ensures_trivial | intros instances _].
  set (stopped := flat_map _ instances). clearbody stopped.
  destruct stopped as [| i rest]; ensures_step; apply extends_one.
  - left; reflexivity.
  - right. exists (i :: rest). split; [discriminate | reflexivity].
Qed.

Lemma step2_lines (summary : list string) :
  ensures (step2 aws summary) (extends summary volume_lines).
Proof.
  unfold step2. eapply ensures_bind; [apply ensures_trivial | intros volumes _].
  destruct (map VolumeId volumes) as [| i rest] eqn:E; ensures_step; apply extends_one.
  - left; reflexivity.
  - right. exists (i :: rest). split; [discriminate | reflexivity].
Qed.

Lemma step3_lines (summary : list string) :
  ensures (step3 aws summary) (extends summary address_lines).
Proof.
  unfold step3. eapply ensures_bind; [apply ensures_trivial | intros addresses _].
  set (eips := flat_map _ addresses). clearbody eips.
  destruct eips as [| i rest]; ensures_step; apply extends_one.
  - left; reflexivity.
  - right. exists (i :: rest). split; [discriminate | reflexivity].
Qed.

Lemma step4_bucket_lines (summary acc : list string) (bucket : Bucket) :
  extends summary bucket_lines acc ->
  ensures (step4_bucket aws acc bucket) (extends summary bucket_lines).
Proof.
  intros (l & -> & Hl). unfold step4_bucket. ensures_step;
    try (exists l; split; [reflexivity | exact Hl]).
  exists (list_append l ("Deleted empty S3 bucket: " ++ Name bucket)). split.
  - unfold list_append. symmetry. apply app_assoc.
  - apply Forall_app. split; [exact Hl |].
    constructor; [exists (Name bucket); reflexivity | constructor].
Qed.

Lemma step4_lines (summary : list string) :
  ensures (step4 aws summary) (fun r => extends summary bucket_lines (snd r)).
Proof.
  unfold step4. eapply ensures_bind; [apply ensures_trivial | intros response _].
  eapply ensures_bind.
  - apply ensures_for_each with (Inv := extends summary bucket_lines).
    + intros acc bucket Hacc. apply step4_bucket_lines; exact Hacc.
    + apply extends_none. constructor.
  - intros out Hout. apply ensures_ret. exact Hout.
Qed.

Lemma step5_lines (summary : list string) :
  ensures (step5 aws summary) (fun r => extends summary ec2_lines (snd r)).
Proof.
  unfold step5. ensures_step. apply extends_one. eexists; reflexivity.
Qed.

Lemma step6_lines (buckets : list Bucket) (start now : Z) (summary : list string) :
  ensures (step6 aws buckets start now summary) (extends summary s3_lines).
Proof.
  unfold step6. ensures_step. apply extends_one. eexists; reflexivity.
Qed.

Lemma step7_lines (start now : Z) (summary : list string) :
  ensures (step7 aws start now summary) (extends summary lambda_lines).
Proof.
  unfold step7. ensures_step. apply extends_one. eexists; reflexivity.
Qed.

Lemma step8_lines (summary : list string) :
  ensures (step8 aws summary) (extends summary rds_lines).
Proof.
  unfold step8. ensures_step. apply extends_one. eexists; reflexivity.
Qed.

Lemma step9_lines (summary : list string) (cost_savings : Q) :
  ensures (step9 aws py cfg summary cost_savings)
    (fun r => extends summary (snapshot_lines cfg) (fst r)).
Proof.
  unfold step9. ensures_step; simpl.
  - apply extends_none. left; reflexivity.
  - apply extends_one. right. eexists. split; [| reflexivity]. discriminate.
Qed.

Lemma step10_lines (summary : list string) :
  ensures (step10 aws summary) (extends summary group_lines).
Proof.
  unfold step10. ensures_step.
  - apply extends_none. left; reflexivity.
  - apply extends_one. right. eexists. split; [| reflexivity]. discriminate.
Qed.

Lemma step11_lines (summary : list string) (cost_savings : Q) :
  ensures (step11 aws summary cost_savings)
    (fun r => extends summary balancer_lines (fst r)).
Proof.
  unfold step11. ensures_step; simpl.
  - apply extends_none. left; reflexivity.
  - apply extends_one. right. eexists. split; [| reflexivity]. discriminate.
Qed.

Lemma step12_lines (summary : list string) :
  ensures (step12 aws summary) (extends summary retention_lines).
Proof.
  unfold step12.
  eapply ensures_bind; [apply ensures_trivial | intros log_groups _].
  eapply ensures_bind; [apply ensures_trivial | intros updated_logs _].
  destruct (updated_logs >? 0) eqn:E; apply ensures_ret.
  - apply extends_one. right. exists updated_logs. split; [lia | reflexivity].
  - apply extends_none. left; reflexivity.
Qed.

Lemma step13_lines (summary : list string) :
  ensures (step13 aws cfg summary) (fun r => extends summary low_cpu_lines (snd r)).
Proof.
  unfold step13. ensures_step; simpl.
  - apply extends_none. left; reflexivity.
  - apply extends_one. right. eexists. split; [| reflexivity]. discriminate.
Qed.

Lemma step14_lines (summary : list string) :
  ensures (step14 aws py cfg summary) (extends summary (untagged_lines cfg)).
Proof.
  unfold step14. ensures_step.
  - apply extends_none. left; reflexivity.
  - apply extends_one. right. eexists. split; [| reflexivity]. discriminate.
Qed.

Lemma step15_lines (now : Z) (summary : list string) :
  ensures (step15 aws py now summary) (extends summary (cost_lines py)).
Proof.
  unfold step15. ensures_step.
  - eexists [_; _]. split.
    + unfold list_append. rewrite <- app_assoc. reflexivity.
    + right. eexists _, _. reflexivity.
  - apply extends_none. left; reflexivity.
Qed.

(** The findings of a completed run have the shape of [findings_shape], and
    the savings line follows them. *)
Lemma handler_findings :
  ensures (lambda_handler aws py cfg)
    (fun r =>
       status r = "completed" /\
       exists findings,
         summary r = list_append findings (savings_line (estimated_savings r)) /\
         findings_shape py cfg findings).
Proof.
  unfold lambda_handler.
  eapply ensures_bind; [apply ensures_trivial | intros _ _].
  eapply ensures_bind; [apply step1_lines | intros o1 (l1 & -> & H1)].
  eapply ensures_bind; [apply step2_lines | intros o2 (l2 & -> & H2)].
  eapply ensures_bind; [apply step3_lines | intros o3 (l3 & -> & H3)].
  eapply ensures_bind; [apply step4_lines | intros [buckets o4] (l4 & E4 & H4)].
  simpl in E4; subst o4.
  eapply ensures_bind; [apply step5_lines | intros [[now start] o5] (l5 & E5 & H5)].
  simpl in E5; subst o5.
  eapply ensures_bind; [apply step6_lines | intros o6 (l6 & -> & H6)].
  eapply ensures_bind; [apply step7_lines | intros o7 (l7 & -> & H7)].
  eapply ensures_bind; [apply step8_lines | intros o8 (l8 & -> & H8)].
  eapply ensures_bind; [apply step9_lines | intros [o9 sv9] (l9 & E9 & H9)].
  simpl in E9; subst o9.
  eapply ensures_bind; [apply step10_lines | intros o10 (l10 & -> & H10)].
  eapply ensures_bind; [apply step11_lines | intros [o11 sv11] (l11 & E11 & H11)].
  simpl in E11; subst o11.
  eapply ensures_bind; [apply step12_lines | intros o12 (l12 & -> & H12)].
  eapply ensures_bind; [apply step13_lines | intros [now' o13] (l13 & E13 & H13)].
  simpl in E13; subst o13.
  eapply ensures_bind; [apply step14_lines | intros o14 (l14 & -> & H14)].
  eapply ensures_bind; [apply step15_lines | intros o15 (l15 & -> & H15)].
  eapply ensures_bind; [apply ensures_trivial | intros _ _].
  eapply ensures_bind; [apply ensures_trivial | intros _ _].
  apply ensures_ret. split; [reflexivity |]. simpl.
  eexists. split; [reflexivity |].
  exists l1, l2, l3, l4, l5, l6, l7, l8, l9, l10, l11, l12, l13, l14, l15.
  split; [| tauto].
  simpl. rewrite app_nil_r. rewrite <- !app_assoc. reflexivity.
Qed.

(** *** Which programs return *)

Hypothesis unguarded_ok : unguarded_calls_succeed aws.

Lemma completes_call {A : Type} (c : Call A) :
  guarded c = false -> completes (call aws c).
Proof.
  intros Hc s. unfold call.
  destruct (unguarded_ok A c (world s) Hc) as (a & w' & E). rewrite E.
  eexists _, _. reflexivity.
Qed.

Lemma completes_now_utc : completes (now_utc aws).
Proof. intros s. eexists _, _. reflexivity. Qed.

Lemma completes_get_resource_age (t : Z) :
  completes (get_resource_age aws py (DateTime (Aware t))).
Proof.
  intros s. eexists _, _. reflexivity.
Qed.

Ltac completes_step :=
  repeat first
    [ apply completes_ret
    | apply completes_logger
    | apply completes_now_utc
    | apply completes_get_resource_age
    | apply completes_call; reflexivity
    | apply completes_try_except; intros ?
    | apply completes_for_each; intros ? ?
    | apply completes_bind; [| intros ?]
    | match goal with
      | |- completes (match ?x with _ => _ end) => destruct x
      end ].

Lemma step1_completes summary : completes (step1 aws summary).
Proof. unfold step1. completes_step. Qed.

Lemma step2_completes summary : completes (step2 aws summary).
Proof. unfold step2. completes_step. Qed.

Lemma step3_completes summary : completes (step3 aws summary).
Proof. unfold step3. completes_step. Qed.

Lemma step4_completes summary : completes (step4 aws summary).
Proof. unfold step4, step4_bucket. completes_step. Qed.

Lemma step5_completes summary : completes (step5 aws summary).
Proof. unfold step5. completes_step. Qed.

Lemma step6_completes buckets start now summary :
  completes (step6 aws buckets start now summary).
Proof. unfold step6, step6_bucket. completes_step. Qed.

Lemma step7_completes start now summary : completes (step7 aws start now summary).
Proof. unfold step7. completes_step. Qed.

Lemma step8_completes summary : completes (step8 aws summary).
Proof. unfold step8. completes_step. Qed.

Lemma step9_completes summary cost_savings :
  completes (step9 aws py cfg summary cost_savings).
Proof. unfold step9, step9_snapshot. completes_step. Qed.

Lemma step10_completes summary : completes (step10 aws summary).
Proof. unfold step10, step10_group. completes_step. Qed.

Lemma step11_completes summary cost_savings :
  completes (step11 aws summary cost_savings).
Proof. unfold step11, step11_balancer. completes_step. Qed.

Lemma step12_completes summary : completes (step12 aws summary).
Proof. unfold step12, step12_group. completes_step. Qed.

Lemma step13_completes summary : completes (step13 aws cfg summary).
Proof. unfold step13, step13_instance. completes_step. Qed.

Lemma step14_completes summary : completes (step14 aws py cfg summary).
Proof. unfold step14, step14_volume. completes_step. Qed.

(** Step 15 returns whatever the collaborator does: all of it is guarded. *)
Lemma step15_completes now summary : completes (step15 aws py now summary).
Proof. unfold step15. completes_step. Qed.

Lemma publish_sns_completes message subject :
  completes (publish_sns aws cfg message subject).
Proof. unfold publish_sns. completes_step. Qed.

Lemma lambda_handler_completes : completes (lambda_handler aws py cfg).
Proof.
  unfold lambda_handler.
  repeat first
    [ apply completes_ret
    | apply completes_logger
    | apply publish_sns_completes
    | apply step1_completes | apply step2_completes | apply step3_completes
    | apply step4_completes | apply step5_completes | apply step6_completes
    | apply step7_completes | apply step8_completes | apply step9_completes
    | apply step10_completes | apply step11_completes | apply step12_completes
    | apply step13_completes | apply step14_completes | apply step15_completes
    | apply completes_bind; [| intros ?]
    | match goal with
      | |- completes (match ?x with _ => _ end) => destruct x
      end ].
Qed.

End StepProperties.

(** *** A run against the same account with every call succeeding *)

Section Refinement.

Variable now : Z.
Variables full flaky : forall A : Type, Call A -> result A.
Variable py : Python.
Variable cfg : Config.
Hypothesis full_repairs_flaky : repairs full flaky.

Let aws_f : Collaborator unit := oracle now flaky.
Let aws : Collaborator unit := oracle now full.

Lemma refines_call {A : Type} (c : Call A) : refines eq (call aws_f c) (call aws c).
Proof.
  intros s_f a_f s_f' E s. unfold call in *. simpl in *.
  destruct (flaky A c) as [a | e] eqn:Ef; inversion E; subst.
  rewrite (proj2 (full_repairs_flaky A c) _ Ef).
  eexists _, _. split; reflexivity.
Qed.

Lemma full_call_completes {A : Type} (c : Call A) : completes (call aws c).
Proof.
  intros s. unfold call. simpl.
  destruct (proj1 (full_repairs_flaky A c)) as (a & E). rewrite E.
  eexists _, _. reflexivity.
Qed.

Lemma refines_now_utc : refines eq (now_utc aws_f) (now_utc aws).
Proof. apply refines_pure. reflexivity. Qed.

Lemma refines_logger (level : Level) (msg_f msg : string) :
  refines (fun _ _ => True) (@logger unit level msg_f) (@logger unit level msg).
Proof. apply refines_total. apply completes_logger. Qed.

Lemma refines_get_resource_age (d : creation_date) :
  refines eq (get_resource_age aws_f py d) (get_resource_age aws py d).
Proof.
  apply refines_pure. intros s_f s.
  unfold get_resource_age, bind, ret, raise, now_utc.
  destruct d as [text | d]; [destruct (fromisoformat py _) as [d |] |];
    try destruct d; reflexivity.
Qed.

Lemma refines_getitem {A : Type} (key : string) (o : option A) :
  refines eq (@getitem unit A key o) (@getitem unit A key o).
Proof. apply refines_pure. intros s_f s. destruct o; reflexivity. Qed.

Ltac refines_step :=
  repeat first
    [ apply refines_ret
    | apply refines_raise
    | eapply refines_bind; [apply refines_call | intros ? ? <-]
    | eapply refines_bind; [apply refines_now_utc | intros ? ? <-]
    | eapply refines_bind; [apply refines_get_resource_age | intros ? ? <-]
    | eapply refines_bind; [apply refines_getitem | intros ? ? <-]
    | eapply refines_bind; [apply refines_logger | intros ? ? _]
    | match goal with
      | |- refines _ (match ?x with _ => _ end) (match ?x with _ => _ end) => destruct x
      end ].

Ltac ensures_step :=
  repeat first
    [ apply ensures_ret
    | apply ensures_raise
    | apply ensures_try_except; [| intros ?]
    | eapply ensures_bind; [apply ensures_trivial | intros ? _]
    | match goal with
      | |- ensures (match ?x with _ => _ end) _ => destruct x
      end ].

Ltac shorter_arith :=
  unfold shorter, list_append in *; simpl in *;
  rewrite ?length_app in *; simpl in *; lia.

Lemma step1_refines (summary_f summary : list string) :
  shorter summary_f summary ->
  refines shorter (step1 aws_f summary_f) (step1 aws summary).
Proof. intros H. unfold step1. refines_step; shorter_arith. Qed.

Lemma unit_loop_refines (l : list string) (request : string -> Call unit) :
  refines (fun _ _ => True)
    (for_each l tt (fun _ x => call aws_f (request x)))
    (for_each l tt (fun _ x => call aws (request x))).
Proof.
  apply refines_total. apply completes_for_each. intros _ x. apply full_call_completes.
Qed.

Lemma step2_refines (summary_f summary : list string) :
  shorter summary_f summary ->
  refines shorter (step2 aws_f summary_f) (step2 aws summary).
Proof.
  intros H. unfold step2. refines_step; try shorter_arith.
  eapply refines_bind; [apply unit_loop_refines with (request := DeleteVolume) |].
  intros _ _ _. apply refines_ret. shorter_arith.
Qed.

Lemma step3_refines (summary_f summary : list string) :
  shorter summary_f summary ->
  refines shorter (step3 aws_f summary_f) (step3 aws summary).
Proof.
  intros H. unfold step3. refines_step; try shorter_arith.
  eapply refines_bind; [apply unit_loop_refines with (request := ReleaseAddress) |].
  intros _ _ _. apply refines_ret. shorter_arith.
Qed.

Lemma step4_bucket_refines (summary_f summary : list string) (bucket : Bucket) :
  shorter summary_f summary ->
  refines shorter (step4_bucket aws_f summary_f bucket) (step4_bucket aws summary bucket).
Proof.
  intros H. unfold step4_bucket. apply refines_try_keep.
  - refines_step; shorter_arith.
  - ensures_step; shorter_arith.
  - exact H.
Qed.

Lemma step4_refines (summary_f summary : list string) :
  shorter summary_f summary ->
  refines (fun r_f r => fst r_f = fst r /\ shorter (snd r_f) (snd r))
    (step4 aws_f summary_f) (step4 aws summary).
Proof.
  intros H. unfold step4.
  eapply refines_bind; [apply refines_call | intros response ? <-].
  eapply refines_bind.
  - apply refines_for_each with (R := shorter); [| exact H].
    intros acc_f acc bucket Hacc. apply step4_bucket_refines. exact Hacc.
  - intros out_f out Hout. apply refines_ret. split; [reflexivity | exact Hout].
Qed.

Lemma step5_refines (summary_f summary : list string) :
  shorter summary_f summary ->
  refines (fun r_f r => fst r_f = fst r /\ shorter (snd r_f) (snd r))
    (step5 aws_f summary_f) (step5 aws summary).
Proof.
  intros H. unfold step5. refines_step. split; [reflexivity | shorter_arith].
Qed.

Lemma step6_refines (buckets : list Bucket) (start t : Z)
  (summary_f summary : list string) :
  shorter summary_f summary ->
  refines shorter (step6 aws_f buckets start t summary_f)
    (step6 aws buckets start t summary).
Proof.
  intros H. unfold step6. eapply refines_bind.
  - apply refines_total. apply completes_for_each. intros total bucket.
    unfold step6_bucket. apply completes_try_except. intros e.
    apply completes_bind; [apply completes_logger | intros _; apply completes_ret].
  - intros total_f total _. apply refines_ret. shorter_arith.
Qed.

Lemma step7_refines (start t : Z) (summary_f summary : list string) :
  shorter summary_f summary ->
  refines shorter (step7 aws_f start t summary_f) (step7 aws start t summary).
Proof. intros H. unfold step7. refines_step. shorter_arith. Qed.

Lemma step8_refines (summary_f summary : list string) :
  shorter summary_f summary ->
  refines shorter (step8 aws_f summary_f) (step8 aws summary).
Proof. intros H. unfold step8. refines_step. shorter_arith. Qed.

Lemma step9_snapshot_refines (old_snapshots : list string) (snap : Snapshot) :
  refines eq (step9_snapshot aws_f py cfg old_snapshots snap)
    (step9_snapshot aws py cfg old_snapshots snap).
Proof.
  unfold step9_snapshot. refines_step; [| reflexivity].
  eapply refines_bind with (P := fun _ _ => True).
  - apply refines_total. apply completes_try_except. intros e. apply completes_logger.
  - intros _ _ _. apply refines_ret. reflexivity.
Qed.

Lemma step9_refines (summary_f summary : list string) (cost_savings : Q) :
  shorter summary_f summary ->
  refines (fun r_f r => shorter (fst r_f) (fst r))
    (step9 aws_f py cfg summary_f cost_savings) (step9 aws py cfg summary cost_savings).
Proof.
  intros H. unfold step9.
  eapply refines_bind; [apply refines_call | intros snapshots ? <-].
  eapply refines_bind.
  - apply refines_for_each with (R := eq); [| reflexivity].
    intros ? acc snap <-. apply step9_snapshot_refines.
  - intros old_snapshots ? <-. destruct old_snapshots; apply refines_ret; shorter_arith.
Qed.

Lemma step10_group_refines (used_sgs unused_f unused : list string) (sg : SecurityGroup) :
  shorter unused_f unused ->
  refines shorter (step10_group aws_f used_sgs unused_f sg)
    (step10_group aws used_sgs unused sg).
Proof.
  intros H. unfold step10_group.
  destruct (negb (String.eqb (GroupName sg) "default")
            && negb (set_mem (GroupId sg) used_sgs)).
  - apply refines_try_keep.
    + refines_step; shorter_arith.
    + ensures_step; shorter_arith.
    + exact H.
  - apply refines_ret. exact H.
Qed.

Lemma step10_refines (summary_f summary : list string) :
  shorter summary_f summary ->
  refines shorter (step10 aws_f summary_f) (step10 aws summary).
Proof.
  intros H. unfold step10.
  eapply refines_bind; [apply refines_call | intros security_groups ? <-].
  eapply refines_bind; [apply refines_call | intros instances ? <-].
  eapply refines_bind.
  - apply refines_for_each with (R := shorter); [| unfold shorter; reflexivity].
    intros acc_f acc sg Hacc. apply step10_group_refines. exact Hacc.
  - intros unused_f unused Hu.
    destruct unused_f, unused; apply refines_ret; shorter_arith.
Qed.

Lemma step11_balancer_refines (acc_f acc : list string * Q) (lb : LoadBalancer) :
  shorter (fst acc_f) (fst acc) ->
  refines (fun r_f r => shorter (fst r_f) (fst r))
    (step11_balancer aws_f acc_f lb) (step11_balancer aws acc lb).
Proof.
  destruct acc_f as [unused_f savings_f], acc as [unused savings]. simpl. intros H.
  unfold step11_balancer.
  eapply refines_bind; [apply refines_call | intros targets ? <-].
  destruct (TargetGroupArns targets).
  - apply refines_try_keep with (R := fun r_f r => shorter (fst r_f) (fst r)).
    + refines_step; shorter_arith.
    + ensures_step; shorter_arith.
    + exact H.
  - apply refines_ret. exact H.
Qed.

Lemma step11_refines (summary_f summary : list string) (savings_f savings : Q) :
  shorter summary_f summary ->
  refines (fun r_f r => shorter (fst r_f) (fst r))
    (step11 aws_f summary_f savings_f) (step11 aws summary savings).
Proof.
  intros H. unfold step11.
  eapply refines_bind; [apply refines_call | intros load_balancers ? <-].
  eapply refines_bind.
  - apply refines_for_each with (R := fun r_f r => shorter (fst r_f) (fst r));
      [| unfold shorter; reflexivity].
    intros acc_f acc lb Hacc. apply step11_balancer_refines. exact Hacc.
  - intros [unused_f sv_f] [unused sv] Hu. simpl in Hu.
    destruct unused_f, unused; apply refines_ret; shorter_arith.
Qed.

Lemma step12_group_refines (updated_f updated : Z) (lg : LogGroup) :
  updated_f <= updated ->
  refines Z.le (step12_group aws_f updated_f lg) (step12_group aws updated lg).
Proof.
  intros H. unfold step12_group.
  destruct (match retentionInDays lg with None => true | Some _ => false end
            || (get_default (retentionInDays lg) 0 >? 30)).
  - apply refines_try_keep with (R := Z.le).
    + refines_step; lia.
    + ensures_step; lia.
    + exact H.
  - apply refines_ret. exact H.
Qed.

Lemma step12_refines (summary_f summary : list string) :
  shorter summary_f summary ->
  refines shorter (step12 aws_f summary_f) (step12 aws summary).
Proof.
  intros H. unfold step12.
  eapply refines_bind; [apply refines_call | intros log_groups ? <-].
  eapply refines_bind.
  - apply refines_for_each with (R := Z.le); [| reflexivity].
    intros acc_f acc lg Hacc. apply step12_group_refines. exact Hacc.
  - intros updated_f updated Hu.
    destruct (updated_f >? 0) eqn:Ef, (updated >? 0) eqn:E; apply refines_ret;
      shorter_arith.
Qed.

Lemma step13_instance_refines (start t : Z) (low_f low : list string)
  (instance : Instance) :
  shorter low_f low ->
  refines shorter (step13_instance aws_f cfg start t low_f instance)
    (step13_instance aws cfg start t low instance).
Proof.
  intros H. unfold step13_instance. apply refines_try_keep.
  - refines_step; shorter_arith.
  - ensures_step; shorter_arith.
  - exact H.
Qed.

Lemma step13_refines (summary_f summary : list string) :
  shorter summary_f summary ->
  refines (fun r_f r => fst r_f = fst r /\ shorter (snd r_f) (snd r))
    (step13 aws_f cfg summary_f) (step13 aws cfg summary).
Proof.
  intros H. unfold step13.
  eapply refines_bind; [apply refines_now_utc | intros t ? <-].
  eapply refines_bind; [apply refines_call | intros running ? <-].
  eapply refines_bind.
  - apply refines_for_each with (R := shorter); [| unfold shorter; reflexivity].
    intros acc_f acc reservation Hacc.
    apply refines_for_each with (R := shorter); [| exact Hacc].
    intros low_f low instance Hlow. apply step13_instance_refines. exact Hlow.
  - intros low_f low Hlow.
    destruct low_f, low; apply refines_ret; (split; [reflexivity | shorter_arith]).
Qed.

Lemma step14_refines (summary_f summary : list string) :
  shorter summary_f summary ->
  refines shorter (step14 aws_f py cfg summary_f) (step14 aws py cfg summary).
Proof.
  intros H. unfold step14.
  eapply refines_bind; [apply refines_call | intros volumes ? <-].
  eapply refines_bind.
  - apply refines_for_each with (R := eq); [| reflexivity].
    intros ? acc vol <-. unfold step14_volume. refines_step; reflexivity.
  - intros untagged ? <-. destruct untagged; apply refines_ret; shorter_arith.
Qed.

Lemma step15_refines (t : Z) (summary_f summary : list string) :
  shorter summary_f summary ->
  refines shorter (step15 aws_f py t summary_f) (step15 aws py t summary).
Proof.
  intros H. unfold step15. apply refines_try_keep.
  - eapply refines_bind; [apply refines_call | intros cost_response ? <-].
    eapply refines_bind.
    + apply refines_for_each with (R := eq); [| reflexivity].
      intros ? costs result <-.
      apply refines_for_each with (R := eq); [| reflexivity].
      intros ? costs' group <-. apply refines_pure. intros s_f s.
      unfold step15_group, bind, ret, raise.
      destruct (Keys group); [reflexivity |].
      destruct (float_of_str py (BlendedCost_Amount group)); reflexivity.
    + intros monthly_costs ? <-. apply refines_ret. shorter_arith.
  - ensures_step; shorter_arith.
  - exact H.
Qed.

(** Against the repaired account the run returns too, and its summary has at
    least as many lines. *)
Lemma handler_refines :
  refines (fun r_f r => (length (summary r_f) <= length (summary r))%nat)
    (lambda_handler aws_f py cfg) (lambda_handler aws py cfg).
Proof.
  unfold lambda_handler.
  eapply refines_bind; [apply refines_logger | intros _ _ _].
  eapply refines_bind; [apply step1_refines; unfold shorter; reflexivity | intros f1 o1 H1].
  eapply refines_bind; [apply step2_refines; exact H1 | intros f2 o2 H2].
  eapply refines_bind; [apply step3_refines; exact H2 | intros f3 o3 H3].
  eapply refines_bind; [apply step4_refines; exact H3 | intros [bf f4] [b o4] [Eb H4]].
  simpl in Eb, H4; subst bf.
  eapply refines_bind; [apply step5_refines; exact H4 |].
  intros [[nf sf] f5] [[n st] o5] [E5 H5]. simpl in E5, H5. inversion E5; subst.
  eapply refines_bind; [apply step6_refines; exact H5 | intros f6 o6 H6].
  eapply refines_bind; [apply step7_refines; exact H6 | intros f7 o7 H7].
  eapply refines_bind; [apply step8_refines; exact H7 | intros f8 o8 H8].
  eapply refines_bind; [apply step9_refines; exact H8 | intros [f9 vf9] [o9 v9] H9].
  simpl in H9.
  eapply refines_bind; [apply step10_refines; exact H9 | intros f10 o10 H10].
  eapply refines_bind; [apply step11_refines; exact H10 | intros [f11 vf11] [o11 v11] H11].
  simpl in H11.
  eapply refines_bind; [apply step12_refines; exact H11 | intros f12 o12 H12].
  eapply refines_bind; [apply step13_refines; exact H12 |].
  intros [nf13 f13] [n13 o13] [E13 H13]. simpl in E13, H13. subst nf13.
  eapply refines_bind; [apply step14_refines; exact H13 | intros f14 o14 H14].
  eapply refines_bind; [apply step15_refines; exact H14 | intros f15 o15 H15].
  eapply refines_bind; [apply refines_logger | intros _ _ _].
  eapply refines_bind with (P := fun _ _ => True).
  - apply refines_total. unfold publish_sns.
    destruct (negb (String.eqb (SNS_TOPIC_ARN cfg) ""));
      [apply full_call_completes | apply completes_logger].
  - intros _ _ _. apply refines_ret. simpl. shorter_arith.
Qed.

End Refinement.

(** * The claims *)

(** ** C1: which failures a run survives *)

(** C1, as stated, fails: when the collaborator refuses [describe_instances],
    the first call of step 1, the exception leaves the handler.  No later
    step runs (the trace holds that one call) and no report is returned. *)
Lemma C1_unguarded_failure_aborts :
  lambda_handler Scenarios.denied_account Scenarios.python default_config (init tt)
  = (Raise (ClientError "UnauthorizedOperation"),
     {| world := tt;
        calls := [issued (DescribeInstances [])];
        log := [(INFO, "Starting enhanced AWS cost optimization job...")] |}).
Proof. vm_compute. reflexivity. Qed.

(** C1, amended: the calls issued inside a [try] block (listing and deleting
    a bucket, the per-bucket and per-instance metric queries, deleting a
    snapshot, a security group or a load balancer, setting a retention
    policy, the cost query) never abort a run.  For every collaborator that
    answers the other calls, whatever it does on those, every step returns
    in every state, the handler returns with status "completed", and its
    summary is the findings of the steps (the seven unconditional lines
    among them) followed by the savings line.  And the worst outcome is a
    shorter report: for an account whose answers depend on the call alone,
    a run that returns has at most as many summary lines as the run against
    the same account with every call succeeding, which returns too. *)
Theorem C1_guarded_failures_never_abort :
  (forall (W : Type) (aws : Collaborator W) (py : Python) (cfg : Config),
      unguarded_calls_succeed aws ->
      every_step_completes aws py cfg /\
      forall s : St W,
        exists r s',
          lambda_handler aws py cfg s = (Ok r, s') /\
          status r = "completed" /\
          exists findings,
            summary r = list_append findings (savings_line (estimated_savings r)) /\
            findings_shape py cfg findings /\
            (7 <= length findings)%nat) /\
  (forall (now : Z) (full flaky : forall A : Type, Call A -> result A)
          (py : Python) (cfg : Config),
      repairs full flaky ->
      forall (s_f s_f' : St unit) (r_f : Response),
        lambda_handler (oracle now flaky) py cfg s_f = (Ok r_f, s_f') ->
        forall s : St unit,
          exists r s',
            lambda_handler (oracle now full) py cfg s = (Ok r, s') /\
            (length (summary r_f) <= length (summary r))%nat).
Proof.
  split.
  - intros W aws py cfg H. split.
    + unfold every_step_completes.
      repeat split; intros;
        first [ apply step1_completes | apply step2_completes | apply step3_completes
              | apply step4_completes | apply step5_completes | apply step6_completes
              | apply step7_completes | apply step8_completes | apply step9_completes
              | apply step10_completes | apply step11_completes | apply step12_completes
              | apply step13_completes | apply step14_completes | apply step15_completes ];
        exact H.
    + intros s.
      destruct (lambda_handler_completes aws py cfg H s) as (r & s' & E).
      exists r, s'. split; [exact E |].
      destruct (handler_findings aws py cfg _ _ _ E) as (Hstatus & findings & Hsum & Hshape).
      split; [exact Hstatus |]. exists findings. split; [exact Hsum |]. split; [exact Hshape |].
      destruct Hshape as (l1 & l2 & l3 & l4 & l5 & l6 & l7 & l8 & l9 & l10 & l11 & l12
                          & l13 & l14 & l15 & -> & H1 & H2 & H3 & _ & H5 & H6 & H7 & H8 & _).
      assert (length l1 = 1%nat) by (destruct H1 as [-> | (? & _ & ->)]; reflexivity).
      assert (length l2 = 1%nat) by (destruct H2 as [-> | (? & _ & ->)]; reflexivity).
      assert (length l3 = 1%nat) by (destruct H3 as [-> | (? & _ & ->)]; reflexivity).
      assert (length l5 = 1%nat) by (destruct H5 as (? & ->); reflexivity).
      assert (length l6 = 1%nat) by (destruct H6 as (? & ->); reflexivity).
      assert (length l7 = 1%nat) by (destruct H7 as (? & ->); reflexivity).
      assert (length l8 = 1%nat) by (destruct H8 as (? & ->); reflexivity).
      simpl. rewrite !length_app. lia.
  - intros now full flaky py cfg Hrep s_f s_f' r_f E s.
    exact (handler_refines now full flaky py cfg Hrep s_f r_f s_f' E s).
Qed.

(** In the flaky account every guarded call is refused and every other call
    is answered. *)
Lemma flaky_unguarded_calls_succeed : unguarded_calls_succeed Scenarios.flaky_account.
Proof.
  intros A c w Hc. simpl. unfold Scenarios.flaky_answer. rewrite Hc.
  eexists _, _. reflexivity.
Defined.

(** The sample account is the flaky one with every call succeeding. *)
Lemma sample_repairs_flaky : repairs Scenarios.sample_answer Scenarios.flaky_answer.
Proof.
  intros A c. unfold Scenarios.sample_answer, Scenarios.flaky_answer. split.
  - eexists. reflexivity.
  - intros a. destruct (guarded c); [discriminate | exact (fun E => E)].
Defined.

Lemma C1_guarded_failures_never_abort_witness :
  unguarded_calls_succeed Scenarios.flaky_account /\
  repairs Scenarios.sample_answer Scenarios.flaky_answer /\
  (exists r s',
      lambda_handler Scenarios.flaky_account Scenarios.python default_config (init tt)
      = (Ok r, s') /\
      status r = "completed" /\
      exists findings,
        summary r = list_append findings (savings_line (estimated_savings r)) /\
        findings_shape Scenarios.python default_config findings /\
        (7 <= length findings)%nat) /\
  (exists r_f s_f' r s',
      lambda_handler Scenarios.flaky_account Scenarios.python default_config (init tt)
      = (Ok r_f, s_f') /\
      lambda_handler Scenarios.sample_account Scenarios.python default_config (init tt)
      = (Ok r, s') /\
      length (summary r_f) = 10%nat /\
      length (summary r) = 17%nat /\
      (length (summary r_f) <= length (summary r))%nat).
Proof.
  split; [exact flaky_unguarded_calls_succeed |].
  split; [exact sample_repairs_flaky |].
  split.
  - exact (proj2 (proj1 C1_guarded_failures_never_abort unit Scenarios.flaky_account
                    Scenarios.python default_config flaky_unguarded_calls_succeed)
                 (init tt)).
  - destruct (lambda_handler Scenarios.flaky_account Scenarios.python default_config
                (init tt)) as [[r_f | e] s_f'] eqn:Ef; [| vm_compute in Ef; discriminate].
    destruct (proj2 C1_guarded_failures_never_abort Scenarios.t0
                Scenarios.sample_answer Scenarios.flaky_answer
                Scenarios.python default_config sample_repairs_flaky
                (init tt) s_f' r_f Ef (init tt)) as (r & s' & E & Hle).
    exists r_f, s_f', r, s'.
    split; [reflexivity |]. split; [exact E |].
    split; [vm_compute in Ef; inversion Ef; reflexivity |].
    split; [vm_compute in E; inversion E; reflexivity | exact Hle].
Defined.

(** ** C2: what the steps add to the findings *)




(** ** C3: the rendered report *)

Lemma string_app_assoc (a b c : string) : (a ++ b) ++ c = a ++ (b ++ c).
Proof. induction a as [| x a IH]; simpl; [reflexivity | rewrite IH; reflexivity]. Qed.

Lemma join_list_append (sep : string) (l : list string) (x : string) :
  join sep (list_append l x)
  = match l with
    | [] => x
    | _ :: _ => join sep l ++ sep ++ x
    end.
Proof.
  unfold join, list_append.
  induction l as [| a [| b rest] IH]; simpl; [reflexivity | reflexivity |].
  simpl in IH. rewrite IH. rewrite !string_app_assoc. reflexivity.
Qed.

(** What a run returns and what it publishes: the summary is the findings
    and the savings line, the message sent to the topic is their rendering. *)
Lemma handler_publishes_report {W : Type} (aws : Collaborator W) (py : Python)
  (cfg : Config) (s s' : St W) (r : Response) :
  String.eqb (SNS_TOPIC_ARN cfg) "" = false ->
  lambda_handler aws py cfg s = (Ok r, s') ->
  exists findings earlier,
    summary r = list_append findings (savings_line (estimated_savings r)) /\
    calls s'
    = list_append earlier
        (issued (Publish (SNS_TOPIC_ARN cfg)
                   (render findings (estimated_savings r))
                   "AWS Cost Optimization Report")).
Proof.
  intros Harn E. unfold lambda_handler in E.
  do 4 (apply bind_returns in E; destruct E as (? & ? & _ & E)).
  apply bind_returns in E. destruct E as ([buckets o4] & ? & _ & E).
  apply bind_returns in E. destruct E as ([[now start] o5] & ? & _ & E).
  do 3 (apply bind_returns in E; destruct E as (? & ? & _ & E)).
  apply bind_returns in E. destruct E as ([o9 sv9] & ? & _ & E).
  apply bind_returns in E. destruct E as (? & ? & _ & E).
  apply bind_returns in E. destruct E as ([o11 sv11] & ? & _ & E).
  apply bind_returns in E. destruct E as (? & ? & _ & E).
  apply bind_returns in E. destruct E as ([now13 o13] & ? & _ & E).
  do 3 (apply bind_returns in E; destruct E as (? & ? & _ & E)).
  apply bind_returns in E. destruct E as ([] & s1 & Epub & E).
  unfold ret in E. inversion E; subst. simpl.
  unfold publish_sns in Epub. rewrite Harn in Epub. simpl in Epub.
  unfold call in Epub. destruct (respond aws _ (world _)) as [[[] | e] w'];
    inversion Epub; subst. simpl.
  eexists _, _. split; reflexivity.
Qed.

(** C3, as stated, fails: the savings line starts with a money-bag sign, so
    the report of a run with no finding and no saving is not the text the
    claim gives. *)
Lemma C3_empty_report_has_prefix :
  render [] 0 = nl ++ "💰 Estimated monthly savings: $0.00" /\
  String.eqb (render [] 0) (nl ++ "Estimated monthly savings: $0.00") = false.
Proof. split; vm_compute; reflexivity. Qed.

(** C3, amended: the report is the findings joined by newlines, then a blank
    line, then the savings line
    [💰 Estimated monthly savings: $<total, 2 decimals>]; with no finding it
    is a newline followed by the savings line, and with no finding and no
    saving it is exactly a newline and
    [💰 Estimated monthly savings: $0.00].  A run whose topic is configured
    publishes the rendering of its findings and savings, and returns the
    findings followed by the savings line. *)
Theorem C3_render_format :
  (forall (first : string) (others : list string) (cost_savings : Q),
      render (first :: others) cost_savings
      = join nl (first :: others) ++ nl ++ nl
          ++ "💰 Estimated monthly savings: $" ++ format_f 2 cost_savings) /\
  (forall cost_savings : Q,
      render [] cost_savings
      = nl ++ "💰 Estimated monthly savings: $" ++ format_f 2 cost_savings) /\
  render [] 0 = nl ++ "💰 Estimated monthly savings: $0.00" /\
  render ["A"; "B"; "C"] (add_savings (add_savings 0 18.25) 0.05)
  = "A" ++ nl ++ "B" ++ nl ++ "C" ++ nl ++ nl ++ "💰 Estimated monthly savings: $18.30" /\
  (forall (W : Type) (aws : Collaborator W) (py : Python) (cfg : Config)
          (s s' : St W) (r : Response),
      String.eqb (SNS_TOPIC_ARN cfg) "" = false ->
      lambda_handler aws py cfg s = (Ok r, s') ->
      exists findings earlier,
        summary r = list_append findings (savings_line (estimated_savings r)) /\
        calls s'
        = list_append earlier
            (issued (Publish (SNS_TOPIC_ARN cfg)
                       (render findings (estimated_savings r))
                       "AWS Cost Optimization Report"))).
Proof.
  split; [| split; [| split; [| split]]].
  - intros first others cost_savings. unfold render.
    rewrite join_list_append. reflexivity.
  - intros cost_savings. reflexivity.
  - vm_compute. reflexivity.
  - vm_compute. reflexivity.
  - intros W aws py cfg s s' r Harn E.
    exact (handler_publishes_report aws py cfg s s' r Harn E).
Qed.

Lemma C3_render_format_witness :
  String.eqb (SNS_TOPIC_ARN default_config) "" = false /\
  exists r s',
    lambda_handler Scenarios.empty_account Scenarios.python default_config (init tt)
    = (Ok r, s') /\
    exists findings earlier,
      summary r = list_append findings (savings_line (estimated_savings r)) /\
      calls s'
      = list_append earlier
          (issued (Publish (SNS_TOPIC_ARN default_config)
                     (render findings (estimated_savings r))
                     "AWS Cost Optimization Report")).
Proof.
  split; [reflexivity |].
  eexists _, _. split; [vm_compute; reflexivity |].
  eapply (proj2 (proj2 (proj2 (proj2 C3_render_format))) unit Scenarios.empty_account
            Scenarios.python default_config (init tt)).
  - reflexivity.
  - vm_compute. reflexivity.
Defined.

(** ** C4: adding a saving *)




(** ** C5: per-item failures *)

(** C5 fails on the snapshot step.  Both deletions are refused in the flaky
    account, and the step still reports two snapshots deleted and adds their
    savings: a snapshot is counted before its deletion is attempted. *)
Theorem C5_failed_snapshot_deletions_are_counted :
  step9 Scenarios.flaky_account Scenarios.python default_config [] 0 (init tt)
  = (Ok (["Deleted 2 old snapshots (>30 days)"], 0.10%Q),
     {| world := tt;
        calls := [ issued (DescribeSnapshots ["self"]);
                   issued (DeleteSnapshot "snap-31d");
                   issued (DeleteSnapshot "snap-400d") ];
        log := [ (WARNING, "Could not delete snapshot snap-31d: AccessDenied");
                 (WARNING, "Could not delete snapshot snap-400d: AccessDenied") ] |}).
Proof. vm_compute. reflexivity. Qed.

(** The sibling steps count an item only once its deletion has succeeded:
    in the same account the security-group and the load-balancer steps
    report nothing. *)
Lemma sibling_steps_count_successes_only :
  fst (step10 Scenarios.flaky_account [] (init tt)) = Ok [] /\
  fst (step11 Scenarios.flaky_account [] 0 (init tt)) = Ok ([], 0%Q).
Proof. split; vm_compute; reflexivity. Qed.

(** ** C6: free-tier comparisons *)




(** ** C7: the savings accumulator *)








Section Savings.

Context {W : Type}.
Variable aws : Collaborator W.
Variable py : Python.
Variable cfg : Config.





End Savings.



(** ** C8: the age of a resource *)

Lemma us_per_day_value : us_per_day = 86400000000.
Proof. reflexivity. Qed.

Lemma get_resource_age_elapsed {W : Type} (aws : Collaborator W) (py : Python)
  (s : St W) (elapsed : Z) :
  get_resource_age aws py (DateTime (Aware (utcnow aws (world s) - elapsed))) s
  = (Ok (elapsed / us_per_day), s).
Proof.
  unfold get_resource_age, bind, ret, now_utc, datetime_sub, timedelta_of_us.
  cbn [days]. do 3 f_equal. ring.
Qed.

(** C8: for a creation instant not later than now, [get_resource_age]
    returns the whole number of days elapsed, rounded down: the age is not
    negative and [age] days <= elapsed < [age + 1] days.  30 days and 1
    second give 30; 29 days and 23 hours give 29.  A creation date given as
    text is parsed first and aged the same way. *)
Theorem C8_age_is_whole_days_elapsed :
  forall (W : Type) (aws : Collaborator W) (py : Python) (s : St W),
    let now := utcnow aws (world s) in
    (forall created : Z,
        created <= now ->
        exists age,
          get_resource_age aws py (DateTime (Aware created)) s = (Ok age, s) /\
          age = (now - created) / us_per_day /\
          0 <= age /\
          age * us_per_day <= now - created < (age + 1) * us_per_day) /\
    get_resource_age aws py
      (DateTime (Aware (now - (timedelta_days 30 + 1 * us_per_second)))) s
    = (Ok 30, s) /\
    get_resource_age aws py
      (DateTime (Aware (now - (timedelta_days 29 + 23 * 3600 * us_per_second)))) s
    = (Ok 29, s) /\
    (forall (text : string) (created : datetime),
        fromisoformat py (replace_char "Z" "+00:00" text) = Some created ->
        get_resource_age aws py (DateStr text) s
        = get_resource_age aws py (DateTime created) s).
Proof.
  intros W aws py s now. split; [| split; [| split]].
  - intros created Hle. exists ((now - created) / us_per_day).
    split; [reflexivity |]. split; [reflexivity |].
    rewrite us_per_day_value.
    pose proof (Z.div_mod (now - created) 86400000000 ltac:(lia)) as Hdm.
    pose proof (Z.mod_pos_bound (now - created) 86400000000 ltac:(lia)) as Hmod.
    split; [apply Z.div_pos; lia | lia].
  - subst now. rewrite get_resource_age_elapsed. reflexivity.
  - subst now. rewrite get_resource_age_elapsed. reflexivity.
  - intros text created Hparse. unfold get_resource_age. rewrite Hparse. reflexivity.
Qed.

(** Creation dates given as text: a UTC text is parsed and aged, a text
    without offset parses to a naive datetime that cannot be subtracted from
    the aware [now], and a text that is no date is rejected. *)
Lemma age_of_texts :
  fst (get_resource_age Scenarios.empty_account Scenarios.python
         (DateStr "2025-11-04T00:00:00Z") (init tt)) = Ok 0 /\
  fst (get_resource_age Scenarios.empty_account Scenarios.python
         (DateStr "2025-11-04T00:00:00") (init tt))
  = Raise (TypeError "can't subtract offset-naive and offset-aware datetimes") /\
  fst (get_resource_age Scenarios.empty_account Scenarios.python
         (DateStr "yesterday") (init tt))
  = Raise (ValueError "Invalid isoformat string").
Proof. repeat split; vm_compute; reflexivity. Qed.

Lemma C8_age_is_whole_days_elapsed_witness :
  Scenarios.days_ago 45 - 7 <= utcnow Scenarios.empty_account tt /\
  exists age,
    get_resource_age Scenarios.empty_account Scenarios.python
      (DateTime (Aware (Scenarios.days_ago 45 - 7))) (init tt) = (Ok age, init tt) /\
    age = (utcnow Scenarios.empty_account tt - (Scenarios.days_ago 45 - 7)) / us_per_day /\
    0 <= age /\
    age * us_per_day <= utcnow Scenarios.empty_account tt - (Scenarios.days_ago 45 - 7)
      < (age + 1) * us_per_day.
Proof.
  assert (H : Scenarios.days_ago 45 - 7 <= utcnow Scenarios.empty_account tt)
    by (vm_compute; discriminate).
  split; [exact H |].
  exact (proj1 (C8_age_is_whole_days_elapsed unit Scenarios.empty_account
                  Scenarios.python (init tt))
               (Scenarios.days_ago 45 - 7) H).
Defined.

(** ** C9: low-utilization instances *)

Lemma issues_call {W A : Type} (aws : Collaborator W) (P : Issued -> Prop) (c : Call A) :
  P (issued c) -> issues P (call aws c).
Proof.
  intros HP s. exists [issued c]. unfold call.
  destruct (respond aws c (world s)) as [r w']. simpl.
  split; [reflexivity | constructor; [exact HP | constructor]].
Qed.

Lemma issues_now_utc {W : Type} (aws : Collaborator W) (P : Issued -> Prop) :
  issues P (now_utc aws).
Proof. apply issues_nothing. reflexivity. Qed.



(** ** C10: the untagged-volume step *)

Lemma step14_volume_pure {W : Type} (aws : Collaborator W) (py : Python) (cfg : Config)
  (untagged_volumes : list string) (vol : Volume) (s : St W) :
  step14_volume aws py cfg untagged_volumes vol s
  = (Ok (if untagged_stale cfg (utcnow aws (world s)) vol
         then list_append untagged_volumes (VolumeId vol)
         else untagged_volumes), s).
Proof.
  unfold step14_volume, untagged_stale, get_resource_age, bind, ret, now_utc.
  destruct (get_default (Tags vol) []); [| reflexivity].
  cbn [andb].
  destruct (days (datetime_sub (utcnow aws (world s)) (CreateTime vol))
            >? CLEANUP_UNTAGGED_AFTER_DAYS cfg); [| reflexivity].
  cbn [andb]. destruct (String.eqb (State vol) "available"); reflexivity.
Qed.

Lemma step14_loop {W : Type} (aws : Collaborator W) (py : Python) (cfg : Config)
  (volumes : list Volume) (untagged_volumes : list string) (s : St W) :
  for_each volumes untagged_volumes (step14_volume aws py cfg) s
  = (Ok (untagged_volumes
           ++ map VolumeId (filter (untagged_stale cfg (utcnow aws (world s))) volumes))%list,
     s).
Proof.
  revert untagged_volumes. induction volumes as [| vol rest IH]; intros acc; simpl.
  - unfold ret. rewrite app_nil_r. reflexivity.
  - unfold bind. rewrite step14_volume_pure. rewrite IH.
    destruct (untagged_stale cfg (utcnow aws (world s)) vol); [| reflexivity].
    unfold list_append. simpl. rewrite <- app_assoc. reflexivity.
Qed.

(** C10: step 14 issues one call, [describe_volumes] without a filter, which
    deletes, terminates and updates nothing, and logs nothing.  When the
    call is answered, the step counts the volumes that have no tags, are
    older than the threshold and are available, appends one warning line
    with the count when it is positive and no line when it is zero; when the
    call fails, its exception leaves the step and no line is appended. *)
Theorem C10_untagged_step_reports_only :
  forall (W : Type) (aws : Collaborator W) (py : Python) (cfg : Config)
         (summary : list string) (s : St W),
    let answer := respond aws (DescribeVolumes []) (world s) in
    mutating (DescribeVolumes []) = false /\
    step14 aws py cfg summary s
    = (match fst answer with
       | Ok volumes =>
           Ok (summary
                 ++ counted_line (untagged_line cfg)
                      (length (filter (untagged_stale cfg (utcnow aws (snd answer)))
                                 volumes)))%list
       | Raise e => Raise e
       end,
       {| world := snd answer;
          calls := list_append (calls s) (issued (DescribeVolumes []));
          log := log s |}).
Proof.
  intros W aws py cfg summary s answer. split; [reflexivity |].
  subst answer. unfold step14, bind, call.
  destruct (respond aws (DescribeVolumes []) (world s)) as [[volumes | e] w'];
    cbn [fst snd]; [| reflexivity].
  rewrite step14_loop. cbn [world app].
  set (found := filter _ volumes).
  destruct found as [| v rest]; cbn [map length counted_line].
  - unfold ret. rewrite app_nil_r. reflexivity.
  - unfold ret, list_append. rewrite length_map. reflexivity.
Qed.

(** * Further properties of the handler *)

(** ** What a loop issues, item by item *)

(** A loop issues the calls of its items one after the other, in the order
    of the list; it stops at the first item that raises, and goes through
    the whole list when it returns. *)
Lemma for_each_chunks {W A B : Type} (P : A -> list Issued -> Prop)
  (body : B -> A -> M W B) (l : list A) :
  (forall acc x s, exists chunk,
      calls (snd (body acc x s)) = (calls s ++ chunk)%list /\ P x chunk) ->
  forall acc s, exists (k : nat) (chunks : list (list Issued)),
    calls (snd (for_each l acc body s)) = (calls s ++ concat chunks)%list /\
    Forall2 P (firstn k l) chunks /\
    (forall out s', for_each l acc body s = (Ok out, s') -> k = length l).
Proof.
  intros Hbody. induction l as [| x rest IH]; intros acc s.
  - exists O, []. simpl. rewrite app_nil_r.
    split; [reflexivity |]. split; [constructor | reflexivity].
  - destruct (Hbody acc x s) as (chunk & Hcalls & HP).
    cbn [for_each]. unfold bind.
    destruct (body acc x s) as [[acc' | e] s1]; simpl in Hcalls.
    + destruct (IH acc' s1) as (k & chunks & Hrest & HF & Hk).
      exists (S k), (chunk :: chunks). cbn [firstn concat].
      split; [rewrite Hrest, Hcalls, app_assoc; reflexivity |].
      split; [constructor; assumption |].
      intros out s' E. cbn [length]. f_equal. exact (Hk _ _ E).
    + exists 1%nat, [chunk]. cbn [firstn concat]. rewrite app_nil_r.
      split; [exact Hcalls |].
      split; [constructor; [exact HP | constructor] | discriminate].
Qed.


(** ** Steps 2 and 3: deleting volumes, releasing addresses *)




(** ** Step 1: terminating stopped instances *)

Lemma stopped_ids_spec (reservations : list Reservation) (id : string) :
  In id (flat_map (fun reservation =>
           flat_map (fun instance =>
             if String.eqb (State_Name instance) "stopped"
             then [InstanceId instance] else [])
             (Instances reservation))
           reservations)
  <-> stopped_instance reservations id.
Proof.
  unfold stopped_instance. rewrite in_flat_map. split.
  - intros (reservation & Hr & Hin). apply in_flat_map in Hin.
    destruct Hin as (instance & Hi & Hid).
    destruct (String.eqb_spec (State_Name instance) "stopped") as [Hs | Hs]; [| destruct Hid].
    destruct Hid as [Hid | []]. exists reservation, instance. auto.
  - intros (reservation & instance & Hr & Hi & Hid & Hs).
    exists reservation. split; [exact Hr |]. apply in_flat_map.
    exists instance. split; [exact Hi |]. rewrite Hs. cbn. left. exact Hid.
Qed.

(** Step 1 terminates the instances whose state is "stopped", all of them and
    no other, in a single call; when no instance is stopped it issues no
    termination at all and records the "nothing found" line. *)
Theorem step1_terminates_stopped_instances_only :
  forall (W : Type) (aws : Collaborator W) (summary : list string) (s : St W)
         (reservations : list Reservation) (w1 : W),
    respond aws (DescribeInstances []) (world s) = (Ok reservations, w1) ->
    ((forall id, ~ stopped_instance reservations id) /\
     step1 aws summary s
     = (Ok (list_append summary "No stopped EC2 instances found."),
        {| world := w1;
           calls := list_append (calls s) (issued (DescribeInstances []));
           log := log s |}))
    \/
    (exists ids,
        ids <> [] /\
        (forall id, In id ids <-> stopped_instance reservations id) /\
        calls (snd (step1 aws summary s))
        = (calls s ++ [issued (DescribeInstances []); issued (TerminateInstances ids)])%list /\
        (forall out s',
            step1 aws summary s = (Ok out, s') ->
            out = list_append summary
                    ("Terminated stopped EC2 instances: " ++ repr_list ids))).
Proof.
  intros W aws summary s reservations w1 H.
  remember (step1 aws summary s) as run eqn:Erun.
  unfold step1, bind in Erun. unfold call at 1 in Erun. rewrite H in Erun.
  pose proof (stopped_ids_spec reservations) as Hspec.
  destruct (flat_map _ reservations) as [| id0 rest] eqn:Estopped.
  - left. split; [| exact Erun].
    intros id Hid. apply Hspec in Hid. exact Hid.
  - right. exists (id0 :: rest).
    split; [discriminate |]. split; [exact Hspec |].
    unfold call, ret in Erun. cbn [world calls] in Erun.
    destruct (respond aws (TerminateInstances (id0 :: rest)) w1) as [[[] | e] w2];
      subst run; cbn [snd calls]; unfold list_append; rewrite <- app_assoc.
    + split; [reflexivity |]. intros out s' E. inversion E. reflexivity.
    + split; [reflexivity | discriminate].
Qed.

(** ** Step 10: the set of security groups in use *)

Lemma set_mem_In (x : string) (s : list string) : set_mem x s = true <-> In x s.
Proof.
  unfold set_mem. rewrite existsb_exists. split.
  - intros (y & Hy & E). apply String.eqb_eq in E. subst y. exact Hy.
  - intros H. exists x. split; [exact H | apply String.eqb_refl].
Qed.

Lemma set_add_In (x y : string) (s : list string) :
  In x (set_add y s) <-> x = y \/ In x s.
Proof.
  unfold set_add. destruct (set_mem y s) eqn:E.
  - apply set_mem_In in E. split; [auto |]. intros [-> | H]; assumption.
  - cbn [In]. split; intros [H | H]; auto.
Qed.

Lemma set_add_NoDup (y : string) (s : list string) : NoDup s -> NoDup (set_add y s).
Proof.
  intros H. unfold set_add. destruct (set_mem y s) eqn:E; [exact H |].
  constructor; [| exact H]. intros Hin. apply set_mem_In in Hin. congruence.
Qed.

Lemma add_groups_spec (groups acc : list string) (g : string) :
  In g (fold_left (fun used sg => set_add sg used) groups acc) <-> In g acc \/ In g groups.
Proof.
  revert acc. induction groups as [| sg rest IH]; intros acc; cbn [fold_left In].
  - tauto.
  - rewrite IH, set_add_In. split; [intros [[-> | H] | H] | intros [H | [-> | H]]]; auto.
Qed.

Lemma add_groups_NoDup (groups acc : list string) :
  NoDup acc -> NoDup (fold_left (fun used sg => set_add sg used) groups acc).
Proof.
  revert acc. induction groups as [| sg rest IH]; intros acc H; cbn [fold_left].
  - exact H.
  - apply IH. apply set_add_NoDup. exact H.
Qed.

Lemma add_instances_spec (instances : list Instance) (acc : list string) (g : string) :
  In g (fold_left (fun used instance =>
          if negb (String.eqb (State_Name instance) "terminated")
          then fold_left (fun used sg => set_add sg used) (SecurityGroups instance) used
          else used) instances acc)
  <-> In g acc \/
      exists instance,
        In instance instances /\
        State_Name instance <> "terminated" /\
        In g (SecurityGroups instance).
Proof.
  revert acc. induction instances as [| i rest IH]; intros acc; cbn [fold_left].
  - split; [auto | intros [H | (? & [] & _)]; exact H].
  - rewrite IH. destruct (String.eqb_spec (State_Name i) "terminated") as [Hs | Hs];
      cbn [negb].
    + split.
      * intros [H | (j & Hj & Hst & Hg)]; [auto |]. right. exists j. cbn [In]. auto.
      * intros [H | (j & [<- | Hj] & Hst & Hg)]; [auto | contradiction |].
        right. exists j. auto.
    + rewrite add_groups_spec. split.
      * intros [[H | H] | (j & Hj & Hst & Hg)]; [auto | |].
        -- right. exists i. cbn [In]. auto.
        -- right. exists j. cbn [In]. auto.
      * intros [H | (j & [<- | Hj] & Hst & Hg)]; [auto | auto |].
        right. exists j. auto.
Qed.

Lemma add_instances_NoDup (instances : list Instance) (acc : list string) :
  NoDup acc ->
  NoDup (fold_left (fun used instance =>
           if negb (String.eqb (State_Name instance) "terminated")
           then fold_left (fun used sg => set_add sg used) (SecurityGroups instance) used
           else used) instances acc).
Proof.
  revert acc. induction instances as [| i rest IH]; intros acc H; cbn [fold_left].
  - exact H.
  - apply IH. destruct (negb _); [apply add_groups_NoDup |]; exact H.
Qed.

Lemma add_reservations_spec (reservations : list Reservation) (acc : list string)
  (g : string) :
  In g (fold_left (fun used reservation =>
          fold_left (fun used instance =>
            if negb (String.eqb (State_Name instance) "terminated")
            then fold_left (fun used sg => set_add sg used) (SecurityGroups instance) used
            else used) (Instances reservation) used) reservations acc)
  <-> In g acc \/ group_in_use reservations g.
Proof.
  unfold group_in_use.
  revert acc. induction reservations as [| r rest IH]; intros acc; cbn [fold_left].
  - split; [auto | intros [H | (? & ? & [] & _)]; exact H].
  - rewrite IH, add_instances_spec. split.
    + intros [[H | (i & Hi & Hst & Hg)] | (r' & i & Hr & Hi & Hst & Hg)]; [auto | |].
      * right. exists r, i. cbn [In]. auto.
      * right. exists r', i. cbn [In]. auto.
    + intros [H | (r' & i & [<- | Hr] & Hi & Hst & Hg)]; [auto | |].
      * left. right. exists i. auto.
      * right. exists r', i. auto.
Qed.

(** The set of step 10 holds a group exactly when an instance that is not
    terminated carries it, and holds no group twice. *)
Theorem used_security_groups_spec :
  forall (reservations : list Reservation),
    NoDup (used_security_groups reservations) /\
    forall g : string,
      set_mem g (used_security_groups reservations) = true
      <-> group_in_use reservations g.
Proof.
  intros reservations. unfold used_security_groups. split.
  - generalize (@nil string) (NoDup_nil string).
    induction reservations as [| r rest IH]; intros acc H; cbn [fold_left].
    + exact H.
    + apply IH. apply add_instances_NoDup. exact H.
  - intros g. rewrite set_mem_In, add_reservations_spec. cbn [In]. tauto.
Qed.

(** A loop whose items never raise goes through the whole list. *)
Lemma for_each_chunks_total {W A B : Type} (P : A -> list Issued -> Prop)
  (body : B -> A -> M W B) (l : list A) :
  (forall acc x s, exists chunk,
      calls (snd (body acc x s)) = (calls s ++ chunk)%list /\ P x chunk) ->
  (forall acc x, completes (body acc x)) ->
  forall acc s, exists chunks : list (list Issued),
    calls (snd (for_each l acc body s)) = (calls s ++ concat chunks)%list /\
    Forall2 P l chunks.
Proof.
  intros Hbody Hcompletes acc s.
  destruct (for_each_chunks P body l Hbody acc s) as (k & chunks & Hcalls & HF & Hk).
  destruct (completes_for_each l body Hcompletes acc s) as (out & s' & E).
  exists chunks. split; [exact Hcalls |].
  rewrite (Hk _ _ E), firstn_all in HF. exact HF.
Qed.

(** What step 10 issues for one security group: its deletion when the group
    is not the default one and no instance in use carries it, and nothing
    otherwise. *)
Lemma step10_group_chunk {W : Type} (aws : Collaborator W)
  (reservations : list Reservation) (unused_sgs : list string) (sg : SecurityGroup)
  (s : St W) :
  exists chunk,
    calls (snd (step10_group aws (used_security_groups reservations) unused_sgs sg s))
    = (calls s ++ chunk)%list /\
    deletes_unused_group reservations sg chunk.
Proof.
  unfold step10_group, deletes_unused_group.
  destruct (String.eqb_spec (GroupName sg) "default") as [Hname | Hname]; cbn [negb andb].
  - exists []. rewrite app_nil_r. split; [reflexivity | left; auto].
  - destruct (set_mem (GroupId sg) (used_security_groups reservations)) eqn:Hused;
      cbn [negb].
    + exists []. rewrite app_nil_r. split; [reflexivity |]. left. split; [reflexivity |].
      right. apply (proj2 (used_security_groups_spec reservations)). exact Hused.
    + exists [issued (DeleteSecurityGroup (GroupId sg))]. split.
      * unfold try_except, bind, call, logger, ret.
        destruct (respond aws _ (world s)) as [[[] | e] w']; reflexivity.
      * right. split; [reflexivity |]. split; [exact Hname |].
        intros Huse. apply (proj2 (used_security_groups_spec reservations)) in Huse.
        congruence.
Qed.

(** Step 10 lists the groups, then the instances, and then goes through the
    groups in order: it issues the deletion of each group that is not named
    "default" and that no instance other than terminated ones carries, and
    issues nothing for the other groups. *)
Theorem step10_deletes_unused_groups_only :
  forall (W : Type) (aws : Collaborator W) (summary : list string) (s : St W)
         (security_groups : list SecurityGroup) (w1 : W)
         (reservations : list Reservation) (w2 : W),
    respond aws DescribeSecurityGroups (world s) = (Ok security_groups, w1) ->
    respond aws (DescribeInstances []) w1 = (Ok reservations, w2) ->
    exists chunks : list (list Issued),
      calls (snd (step10 aws summary s))
      = (calls s
           ++ [issued DescribeSecurityGroups; issued (DescribeInstances [])]
           ++ concat chunks)%list /\
      Forall2 (deletes_unused_group reservations) security_groups chunks.
Proof.
  intros W aws summary s security_groups w1 reservations w2 H1 H2.
  unfold step10, bind. unfold call at 1. rewrite H1.
  unfold call at 1. cbn [world]. rewrite H2.
  fold (used_security_groups reservations).
  set (s2 := {| world := w2; calls := _; log := _ |}).
  destruct (for_each_chunks_total (deletes_unused_group reservations)
              (step10_group aws (used_security_groups reservations)) security_groups)
    with (acc := @nil string) (s := s2) as (chunks & Hcalls & HF).
  - intros acc sg s0. apply step10_group_chunk.
  - intros acc sg. unfold step10_group. destruct (_ && _); [| apply completes_ret].
    apply completes_try_except. intros e.
    apply completes_bind; [apply completes_logger | intros _; apply completes_ret].
  - exists chunks. split; [| exact HF].
    destruct (for_each security_groups [] _ s2) as [[[| x rest] | e] s3];
      cbn [snd] in *; unfold ret; cbn [snd]; rewrite Hcalls;
      subst s2; cbn [calls]; unfold list_append; rewrite <- !app_assoc; reflexivity.
Qed.

(** ** Step 4: deleting empty buckets *)



(** ** Step 9: deleting old snapshots *)



(** ** Step 11: deleting load balancers without target groups *)



(** ** Step 12: log retention *)

Lemma step12_group_chunk {W : Type} (aws : Collaborator W) (updated_logs : Z)
  (lg : LogGroup) (s : St W) :
  calls (snd (step12_group aws updated_logs lg s))
  = (calls s ++ retention_calls lg)%list.
Proof.
  unfold step12_group, retention_calls, needs_retention.
  destruct (_ || _).
  - unfold try_except, bind, call, logger, ret.
    destruct (respond aws _ (world s)) as [[[] | e] w1]; reflexivity.
  - cbn [snd]. rewrite app_nil_r. reflexivity.
Qed.

Lemma concat_of_chunks {A : Type} (f : A -> list Issued) (l : list A)
  (chunks : list (list Issued)) :
  Forall2 (fun x chunk => chunk = f x) l chunks -> concat chunks = flat_map f l.
Proof.
  induction 1 as [| x chunk xs chunks Hc _ IH]; [reflexivity |].
  subst chunk. cbn [concat flat_map]. rewrite IH. reflexivity.
Qed.

Lemma step12_loop_count {W : Type} (aws : Collaborator W) (log_groups : list LogGroup) :
  forall updated_logs : Z,
    ensures (for_each log_groups updated_logs (step12_group aws))
      (fun out =>
         updated_logs <= out
         <= updated_logs + Z.of_nat (length (filter needs_retention log_groups))).
Proof.
  induction log_groups as [| lg rest IH]; intros updated_logs; cbn [for_each].
  - apply ensures_ret. cbn. lia.
  - eapply ensures_bind with
      (P := fun mid =>
              updated_logs <= mid
              <= updated_logs + (if needs_retention lg then 1 else 0)).
    + unfold step12_group, needs_retention. destruct (_ || _).
      * apply ensures_try_except.
        -- eapply ensures_bind; [apply ensures_trivial | intros _ _].
           apply ensures_ret. lia.
        -- intros e. eapply ensures_bind; [apply ensures_trivial | intros _ _].
           apply ensures_ret. lia.
      * apply ensures_ret. lia.
    + intros mid Hmid. eapply ensures_weaken; [apply IH |].
      intros out Hout. cbv beta in Hout. revert Hmid. cbn [filter].
      destruct (needs_retention lg); cbn [length]; intros Hmid; lia.
Qed.

(** Step 12 sets a retention of 30 days on exactly the log groups that have
    no retention or one above 30 days, in the order of the listing, and
    touches no other group.  The number it reports counts the settings that
    succeeded: it is positive and at most the number of such groups, and
    when it would be zero no line is recorded. *)
Theorem step12_sets_missing_or_long_retention_only :
  forall (W : Type) (aws : Collaborator W) (summary : list string) (s : St W)
         (log_groups : list LogGroup) (w1 : W),
    respond aws DescribeLogGroups (world s) = (Ok log_groups, w1) ->
    calls (snd (step12 aws summary s))
    = (calls s ++ issued DescribeLogGroups
         :: flat_map retention_calls log_groups)%list /\
    exists out s',
      step12 aws summary s = (Ok out, s') /\
      (out = summary \/
       exists n,
         0 < n <= Z.of_nat (length (filter needs_retention log_groups)) /\
         out = list_append summary (retention_line n)).
Proof.
  intros W aws summary s log_groups w1 H.
  remember (step12 aws summary s) as run eqn:Erun.
  unfold step12, bind in Erun. unfold call at 1 in Erun. rewrite H in Erun.
  set (s1 := {| world := w1; calls := _; log := _ |}) in Erun.
  destruct (for_each_chunks_total (fun lg chunk => chunk = retention_calls lg)
              (step12_group aws) log_groups)
    with (acc := 0) (s := s1) as (chunks & Hcalls & HF).
  - intros acc lg s0. exists (retention_calls lg).
    split; [apply step12_group_chunk | reflexivity].
  - intros acc lg. unfold step12_group. destruct (_ || _); [| apply completes_ret].
    apply completes_try_except. intros e.
    apply completes_bind; [apply completes_logger | intros _; apply completes_ret].
  - pose proof (concat_of_chunks _ _ _ HF) as Hchunks.
    pose proof (step12_loop_count aws log_groups 0 s1) as Hcount.
    destruct (for_each log_groups 0 (step12_group aws) s1) as [[updated | e] s2] eqn:E.
    + specialize (Hcount _ _ eq_refl). cbn [snd] in Hcalls.
      assert (Htrace : calls s2 = (calls s ++ issued DescribeLogGroups
                                     :: flat_map retention_calls log_groups)%list).
      { rewrite Hcalls, Hchunks. subst s1. cbn [calls]. unfold list_append.
        rewrite <- app_assoc. reflexivity. }
      destruct (updated >? 0) eqn:Hpos; subst run; unfold ret; cbn [snd].
      * split; [exact Htrace |]. eexists _, _. split; [reflexivity |].
        right. exists updated. split; [lia | reflexivity].
      * split; [exact Htrace |]. eexists _, _. split; [reflexivity |]. left. reflexivity.
    + exfalso.
      assert (Hc : completes (for_each log_groups 0 (step12_group aws))).
      { apply completes_for_each. intros acc lg. unfold step12_group.
        destruct (_ || _); [| apply completes_ret].
        apply completes_try_except. intros e0.
        apply completes_bind; [apply completes_logger | intros _; apply completes_ret]. }
      destruct (Hc s1) as (a & s' & E'). congruence.
Qed.

(** ** Step 15: the cost table *)

(** Setting a key and reading it back; the other keys keep their values;
    keys stay unique; a new key goes last and a known key keeps its place. *)
Theorem dict_set_get :
  forall (d : list (string * Q)) (key : string) (value : Q),
    dict_get (dict_set d key value) key = Some value /\
    (forall other, other <> key -> dict_get (dict_set d key value) other = dict_get d other) /\
    (NoDup (map fst d) -> NoDup (map fst (dict_set d key value))) /\
    map fst (dict_set d key value)
    = (if existsb (String.eqb key) (map fst d) then map fst d
       else map fst d ++ [key])%list.
Proof.
  intros d key value. induction d as [| [k v] rest (IH1 & IH2 & IH3 & IH4)].
  - cbn. rewrite String.eqb_refl. repeat split.
    + intros other Hne. apply String.eqb_neq in Hne. rewrite String.eqb_sym, Hne. reflexivity.
    + intros _. constructor; [intros [] | constructor].
  - cbn [dict_set]. destruct (String.eqb_spec k key) as [-> | Hk].
    + cbn [dict_get map fst existsb]. rewrite String.eqb_refl. cbn [orb].
      repeat split; [| exact (fun H => H)].
      intros other Hne. apply String.eqb_neq in Hne. rewrite String.eqb_sym, Hne. reflexivity.
    + cbn [dict_get map fst existsb].
      assert (Hkey : String.eqb key k = false)
        by (apply String.eqb_neq; intros E; apply Hk; symmetry; exact E).
      rewrite Hkey. cbn [orb].
      assert (Hk' : String.eqb k key = false) by (apply String.eqb_neq; exact Hk).
      rewrite Hk'. split; [exact IH1 |]. split; [| split].
      * intros other Hne. destruct (String.eqb k other); [reflexivity | apply IH2; exact Hne].
      * intros Hnd. inversion Hnd as [| ? ? Hnotin Hrest]; subst.
        constructor; [| apply IH3; exact Hrest].
        rewrite IH4. destruct (existsb (String.eqb key) (map fst rest)); [exact Hnotin |].
        rewrite in_app_iff. intros [H | [H | []]]; [exact (Hnotin H) | exact (Hk (eq_sym H))].
      * rewrite IH4. destruct (existsb (String.eqb key) (map fst rest)); reflexivity.
Qed.

Lemma insert_desc_perm (x : string * Q) (l : list (string * Q)) :
  Permutation (insert_desc x l) (x :: l).
Proof.
  induction l as [| y rest IH]; cbn [insert_desc]; [reflexivity |].
  destruct (Qle_bool (snd y) (snd x)); [reflexivity |].
  rewrite IH. apply perm_swap.
Qed.

Lemma insert_desc_sorted (x : string * Q) (l : list (string * Q)) :
  StronglySorted costlier l -> StronglySorted costlier (insert_desc x l).
Proof.
  induction l as [| y rest IH]; intros Hs; cbn [insert_desc].
  - constructor; constructor.
  - inversion Hs as [| ? ? Hrest Hall]; subst.
    destruct (Qle_bool (snd y) (snd x)) eqn:E.
    + apply Qle_bool_iff in E. constructor; [exact Hs |].
      constructor; [exact E |].
      eapply Forall_impl; [| exact Hall]. intros z Hz. unfold costlier in *.
      eapply Qle_trans; eassumption.
    + constructor; [apply IH; exact Hrest |].
      assert (Hxy : costlier y x).
      { unfold costlier. apply Qlt_le_weak. apply Qnot_le_lt. intros Hle.
        apply Qle_bool_iff in Hle. congruence. }
      rewrite (insert_desc_perm x rest). constructor; assumption.
Qed.

Lemma sorted_desc_perm (items : list (string * Q)) : Permutation (sorted_desc items) items.
Proof.
  unfold sorted_desc. induction items as [| x rest IH]; cbn [fold_right]; [reflexivity |].
  rewrite insert_desc_perm, IH. reflexivity.
Qed.

Lemma sorted_desc_sorted (items : list (string * Q)) :
  StronglySorted costlier (sorted_desc items).
Proof.
  unfold sorted_desc. induction items as [| x rest IH]; cbn [fold_right].
  - constructor.
  - apply insert_desc_sorted. exact IH.
Qed.

Lemma sorted_app_ordered {A : Type} (R : A -> A -> Prop) (l1 l2 : list A) :
  StronglySorted R (l1 ++ l2) -> forall x y, In x l1 -> In y l2 -> R x y.
Proof.
  induction l1 as [| a l1 IH]; intros Hs x y Hx Hy; [destruct Hx |].
  cbn [app] in Hs. inversion Hs as [| ? ? Hrest Hall]; subst.
  destruct Hx as [<- | Hx].
  - rewrite Forall_forall in Hall. apply Hall. apply in_or_app. right. exact Hy.
  - exact (IH Hrest x y Hx Hy).
Qed.

(** The "top 5" of a cost table: at most five of its entries, sorted from
    the most expensive to the least, and no entry left out costs more than
    one that is in. *)
Theorem top_costs_are_the_largest :
  forall (monthly_costs : list (string * Q)),
    let top_costs := firstn 5 (sorted_desc monthly_costs) in
    (length top_costs <= 5)%nat /\
    length top_costs = Nat.min 5 (length monthly_costs) /\
    StronglySorted costlier top_costs /\
    (forall entry, In entry top_costs -> In entry monthly_costs) /\
    (forall inside outside,
        In inside top_costs ->
        In outside (skipn 5 (sorted_desc monthly_costs)) ->
        (snd outside <= snd inside)%Q) /\
    Permutation (top_costs ++ skipn 5 (sorted_desc monthly_costs)) monthly_costs.
Proof.
  intros monthly_costs top_costs. subst top_costs.
  pose proof (sorted_desc_perm monthly_costs) as Hperm.
  pose proof (sorted_desc_sorted monthly_costs) as Hsorted.
  rewrite <- (firstn_skipn 5 (sorted_desc monthly_costs)) in Hsorted.
  split; [apply firstn_le_length |].
  split; [rewrite length_firstn, (Permutation_length Hperm); reflexivity |].
  split.
  - clear Hperm. revert Hsorted.
    generalize (firstn 5 (sorted_desc monthly_costs)) (skipn 5 (sorted_desc monthly_costs)).
    induction l as [| a l IH]; intros l2 Hs; [constructor |].
    cbn [app] in Hs. inversion Hs as [| ? ? Hrest Hall]; subst.
    constructor; [exact (IH _ Hrest) |].
    apply Forall_app in Hall. tauto.
  - split; [| split].
    + intros entry Hin. apply (Permutation_in _ Hperm).
      rewrite <- (firstn_skipn 5 (sorted_desc monthly_costs)).
      apply in_or_app. left. exact Hin.
    + intros inside outside Hin Hout.
      exact (sorted_app_ordered costlier _ _ Hsorted inside outside Hin Hout).
    + rewrite firstn_skipn. exact Hperm.
Qed.

Lemma dict_set_keys (d : list (string * Q)) (key : string) (value : Q) (k : string) :
  In k (map fst (dict_set d key value)) <-> In k (map fst d) \/ k = key.
Proof.
  destruct (dict_set_get d key value) as (_ & _ & _ & Hkeys). rewrite Hkeys.
  destruct (existsb (String.eqb key) (map fst d)) eqn:E.
  - split; [auto |]. intros [H | ->]; [exact H |].
    apply existsb_exists in E. destruct E as (x & Hx & Hxe).
    apply String.eqb_eq in Hxe. subst x. exact Hx.
  - rewrite in_app_iff. cbn [In]. split; intros [H | H]; auto.
    + destruct H as [<- | []]. auto.
Qed.

Lemma malformed_dec (py : Python) (group : CostGroup) :
  malformed py group \/ well_formed py group.
Proof.
  unfold malformed, well_formed.
  destruct (Keys group) as [| k rest]; [left; left; reflexivity |].
  destruct (float_of_str py (BlendedCost_Amount group)) as [c |];
    [right; exists k, rest, c; split; reflexivity | left; right; reflexivity].
Qed.

Lemma step15_group_malformed {W : Type} (aws : Collaborator W) (py : Python)
  (group : CostGroup) :
  malformed py group ->
  exists e, forall monthly_costs (s : St W),
    step15_group py monthly_costs group s = (Raise e, s).
Proof.
  unfold malformed, step15_group, bind, ret, raise. intros [H | H].
  - rewrite H. eexists. reflexivity.
  - rewrite H. destruct (Keys group); eexists; reflexivity.
Qed.

Lemma step15_group_well_formed {W : Type} (aws : Collaborator W) (py : Python)
  (group : CostGroup) (service : string) (others : list string) (cost : Q) :
  Keys group = service :: others ->
  float_of_str py (BlendedCost_Amount group) = Some cost ->
  forall monthly_costs (s : St W),
    step15_group py monthly_costs group s
    = (Ok (dict_set monthly_costs service cost), s).
Proof.
  intros Hk Hc monthly_costs s. unfold step15_group, bind, ret. rewrite Hk, Hc. reflexivity.
Qed.

(** The loop over the groups of one result. *)
Lemma step15_groups_loop {W : Type} (aws : Collaborator W) (py : Python)
  (groups : list CostGroup) :
  forall (monthly_costs : list (string * Q)) (s : St W),
    (Exists (malformed py) groups /\
     exists e, for_each groups monthly_costs (step15_group py) s = (Raise e, s))
    \/
    (Forall (well_formed py) groups /\
     exists out,
       for_each groups monthly_costs (step15_group py) s = (Ok out, s) /\
       (NoDup (map fst monthly_costs) -> NoDup (map fst out)) /\
       (forall k, In k (map fst out)
                  <-> In k (map fst monthly_costs) \/
                      exists group others, In group groups /\ Keys group = k :: others)).
Proof.
  induction groups as [| g rest IH]; intros monthly_costs s.
  - right. split; [constructor |]. exists monthly_costs.
    split; [reflexivity |]. split; [exact (fun H => H) |].
    intros k. split; [auto | intros [H | (? & ? & [] & _)]; exact H].
  - cbn [for_each]. unfold bind.
    destruct (malformed_dec py g) as [Hbad | (service & others & cost & Hk & Hc)].
    + left. split; [left; exact Hbad |].
      destruct (step15_group_malformed aws py g Hbad) as (e & He).
      exists e. rewrite He. reflexivity.
    + rewrite (step15_group_well_formed aws py g service others cost Hk Hc).
      destruct (IH (dict_set monthly_costs service cost) s)
        as [(Hex & e & He) | (Hall & out & Hout & Hnd & Hkeys)].
      * left. split; [right; exact Hex | exists e; exact He].
      * right. split; [constructor; [exists service, others, cost; auto | exact Hall] |].
        exists out. split; [exact Hout |]. split.
        -- intros H. apply Hnd. apply dict_set_get. exact H.
        -- intros k. rewrite Hkeys, dict_set_keys. split.
           ++ intros [[H | ->] | (g' & o' & Hg' & Hk')]; [auto | |].
              ** right. exists g, others. cbn [In]. auto.
              ** right. exists g', o'. cbn [In]. auto.
           ++ intros [H | (g' & o' & [<- | Hg'] & Hk')]; [auto | |].
              ** left. right. congruence.
              ** right. exists g', o'. auto.
Qed.

(** The loop over the results of the cost query. *)
Lemma step15_results_loop {W : Type} (aws : Collaborator W) (py : Python)
  (cost_response : list ResultByTime) :
  forall (monthly_costs : list (string * Q)) (s : St W),
    (Exists (fun result => Exists (malformed py) (Groups result)) cost_response /\
     exists e,
       for_each cost_response monthly_costs
         (fun monthly_costs result =>
            for_each (Groups result) monthly_costs (step15_group py)) s
       = (Raise e, s))
    \/
    (Forall (fun result => Forall (well_formed py) (Groups result)) cost_response /\
     exists out,
       for_each cost_response monthly_costs
         (fun monthly_costs result =>
            for_each (Groups result) monthly_costs (step15_group py)) s
       = (Ok out, s) /\
       (NoDup (map fst monthly_costs) -> NoDup (map fst out)) /\
       (forall k, In k (map fst out)
                  <-> In k (map fst monthly_costs) \/ billed_service cost_response k)).
Proof.
  unfold billed_service.
  induction cost_response as [| r rest IH]; intros monthly_costs s.
  - right. split; [constructor |]. exists monthly_costs.
    split; [reflexivity |]. split; [exact (fun H => H) |].
    intros k. split; [auto | intros [H | (? & ? & ? & [] & _)]; exact H].
  - cbn [for_each]. unfold bind.
    destruct (step15_groups_loop aws py (Groups r) monthly_costs s)
      as [(Hex & e & He) | (Hall & mid & Hmid & Hnd1 & Hkeys1)].
    + left. split; [left; exact Hex |]. exists e. rewrite He. reflexivity.
    + rewrite Hmid.
      destruct (IH mid s) as [(Hex & e & He) | (Hall' & out & Hout & Hnd & Hkeys)].
      * left. split; [right; exact Hex | exists e; exact He].
      * right. split; [constructor; assumption |].
        exists out. split; [exact Hout |]. split; [auto |].
        intros k. rewrite Hkeys, Hkeys1. split.
        -- intros [[H | (g & o & Hg & Hk)] | (r' & g & o & Hr' & Hg & Hk)]; [auto | |].
           ++ right. exists r, g, o. cbn [In]. auto.
           ++ right. exists r', g, o. cbn [In]. auto.
        -- intros [H | (r' & g & o & [<- | Hr'] & Hg & Hk)]; [auto | |].
           ++ left. right. exists g, o. auto.
           ++ right. exists r', g, o. auto.
Qed.

(** When the cost query is answered, step 15 records its two lines exactly
    when every group names a service and carries an amount that parses.
    Then the table has one entry for each service billed, and the lines
    show its five largest entries and its total.  A single group without a
    key, or with an amount that is no number, discards both lines: the step
    logs a warning and leaves the summary as it was. *)
Theorem step15_costs_all_or_nothing :
  forall (W : Type) (aws : Collaborator W) (py : Python) (now : Z)
         (summary : list string) (s : St W)
         (cost_response : list ResultByTime) (w1 : W),
    respond aws (GetCostAndUsage (strftime_Ymd (now - timedelta_days 30))
                   (strftime_Ymd now)) (world s)
    = (Ok cost_response, w1) ->
    let s1 := {| world := w1;
                 calls := list_append (calls s)
                            (issued (GetCostAndUsage
                                       (strftime_Ymd (now - timedelta_days 30))
                                       (strftime_Ymd now)));
                 log := log s |} in
    (Exists (fun result => Exists (malformed py) (Groups result)) cost_response /\
     exists e,
       step15 aws py now summary s
       = (Ok summary,
          {| world := w1; calls := calls s1;
             log := list_append (log s)
                      (WARNING, "Could not retrieve cost data: " ++ str_exn e) |}))
    \/
    (Forall (fun result => Forall (well_formed py) (Groups result)) cost_response /\
     exists monthly_costs,
       NoDup (map fst monthly_costs) /\
       (forall k, In k (map fst monthly_costs) <-> billed_service cost_response k) /\
       step15 aws py now summary s
       = (Ok (list_append
                (list_append summary
                   (top_costs_line py (firstn 5 (sorted_desc monthly_costs))))
                (total_cost_line (Qsum (map snd monthly_costs)))),
          s1)).
Proof.
  intros W aws py now summary s cost_response w1 H s1. subst s1.
  unfold step15, try_except, bind, call. rewrite H.
  match goal with
  | |- context [for_each cost_response [] _ ?st] =>
      destruct (step15_results_loop aws py cost_response [] st)
        as [(Hex & e & He) | (Hall & out & Hout & Hnd & Hkeys)]
  end.
  - left. split; [exact Hex |]. exists e. rewrite He. reflexivity.
  - right. split; [exact Hall |]. exists out.
    split; [apply Hnd; constructor |]. split.
    + intros k. rewrite Hkeys. cbn [map In]. tauto.
    + rewrite Hout. reflexivity.
Qed.

(** ** Notification *)

(** With no topic configured a run publishes nothing: whatever the
    collaborator does and whether the run returns or raises, no call it
    issues is a [publish]; a run that returns has logged that it skips the
    notification. *)
Theorem unconfigured_topic_publishes_nothing :
  forall (W : Type) (aws : Collaborator W) (py : Python) (cfg : Config),
    SNS_TOPIC_ARN cfg = "" ->
    issues (fun c => is_publish c = false) (lambda_handler aws py cfg) /\
    forall (s s' : St W) (r : Response),
      lambda_handler aws py cfg s = (Ok r, s') ->
      exists earlier,
        log s' = list_append earlier
                   (INFO, "No SNS topic configured; skipping notification.").
Proof.
  intros W aws py cfg Harn. split.
  - unfold lambda_handler, publish_sns. rewrite Harn. cbn [String.eqb negb].
    unfold step1, step2, step3, step4, step4_bucket, step5, step6, step6_bucket,
      step7, step8, step9, step9_snapshot, step10, step10_group, step11,
      step11_balancer, step12, step12_group, step13, step13_instance, step14,
      step14_volume, step15, step15_group, get_resource_age, getitem.
    repeat first
      [ apply issues_ret
      | apply issues_raise
      | apply issues_logger
      | apply issues_now_utc
      | apply issues_call; reflexivity
      | apply issues_try_except; [| intros ?]
      | apply issues_for_each; intros ? ?
      | apply issues_bind; [| intros ?]
      | match goal with
        | |- issues _ (match ?x with _ => _ end) => destruct x
        end ].
  - intros s s' r E. unfold lambda_handler in E.
    do 4 (apply bind_returns in E; destruct E as (? & ? & _ & E)).
    apply bind_returns in E. destruct E as ([buckets o4] & ? & _ & E).
    apply bind_returns in E. destruct E as ([[now start] o5] & ? & _ & E).
    do 3 (apply bind_returns in E; destruct E as (? & ? & _ & E)).
    apply bind_returns in E. destruct E as ([o9 sv9] & ? & _ & E).
    apply bind_returns in E. destruct E as (? & ? & _ & E).
    apply bind_returns in E. destruct E as ([o11 sv11] & ? & _ & E).
    apply bind_returns in E. destruct E as (? & ? & _ & E).
    apply bind_returns in E. destruct E as ([now13 o13] & ? & _ & E).
    do 3 (apply bind_returns in E; destruct E as (? & ? & _ & E)).
    apply bind_returns in E. destruct E as ([] & s1 & Epub & E).
    unfold ret in E. inversion E; subst.
    unfold publish_sns in Epub. rewrite Harn in Epub. cbn [String.eqb negb] in Epub.
    unfold logger in Epub. inversion Epub; subst. cbn [log].
    eexists. reflexivity.
Qed.

(** With a topic configured, a collaborator that refuses every [publish]
    makes every run raise: the failure of the notification is not caught,
    and the response with the findings is not returned. *)
Theorem refused_publish_aborts_the_run :
  forall (W : Type) (aws : Collaborator W) (py : Python) (cfg : Config),
    String.eqb (SNS_TOPIC_ARN cfg) "" = false ->
    (forall (message subject : string) (w : W),
        exists e w',
          respond aws (Publish (SNS_TOPIC_ARN cfg) message subject) w = (Raise e, w')) ->
    forall s : St W, exists e s', lambda_handler aws py cfg s = (Raise e, s').
Proof.
  intros W aws py cfg Harn Hrefuse s.
  destruct (lambda_handler aws py cfg s) as [[r | e] s'] eqn:E; [| eexists _, _; reflexivity].
  exfalso. unfold lambda_handler in E.
  do 4 (apply bind_returns in E; destruct E as (? & ? & _ & E)).
  apply bind_returns in E. destruct E as ([buckets o4] & ? & _ & E).
  apply bind_returns in E. destruct E as ([[now start] o5] & ? & _ & E).
  do 3 (apply bind_returns in E; destruct E as (? & ? & _ & E)).
  apply bind_returns in E. destruct E as ([o9 sv9] & ? & _ & E).
  apply bind_returns in E. destruct E as (? & ? & _ & E).
  apply bind_returns in E. destruct E as ([o11 sv11] & ? & _ & E).
  apply bind_returns in E. destruct E as (? & ? & _ & E).
  apply bind_returns in E. destruct E as ([now13 o13] & ? & _ & E).
  do 3 (apply bind_returns in E; destruct E as (? & ? & _ & E)).
  apply bind_returns in E. destruct E as ([] & s1 & Epub & _).
  unfold publish_sns in Epub. rewrite Harn in Epub. cbn [negb] in Epub.
  unfold call in Epub.
  match type of Epub with
  | context [respond aws (Publish _ ?m ?subj) ?w] =>
      destruct (Hrefuse m subj w) as (e & w' & Hr); rewrite Hr in Epub
  end.
  discriminate.
Qed.

(** ** The age of a resource, at the edges *)

Lemma replace_char_app (old : ascii) (new a b : string) :
  replace_char old new (a ++ b) = replace_char old new a ++ replace_char old new b.
Proof.
  induction a as [| c a IH]; cbn [append replace_char]; [reflexivity |].
  rewrite IH. destruct (Ascii.eqb c old); [| reflexivity].
  symmetry. apply string_app_assoc.
Qed.

Lemma replace_char_absent (old : ascii) (new s : string) :
  contains_char old s = false -> replace_char old new s = s.
Proof.
  induction s as [| c s IH]; cbn [contains_char replace_char]; [reflexivity |].
  intros H. apply orb_false_iff in H. destruct H as [Hc Hs].
  rewrite Hc, (IH Hs). reflexivity.
Qed.

(** A creation instant later than now has a negative age (the elapsed time
    is rounded down, not towards zero), so such a resource never exceeds a
    threshold that is not negative.  A creation text that is no date raises
    a [ValueError], and a naive datetime, given as such or parsed from a
    text without offset, raises a [TypeError]; a text ending in "Z" is aged
    as the same text ending in "+00:00".  In no case does the function
    touch the state. *)
Theorem age_at_the_edges :
  forall (W : Type) (aws : Collaborator W) (py : Python) (s : St W),
    (forall created : Z,
        utcnow aws (world s) < created ->
        exists age,
          get_resource_age aws py (DateTime (Aware created)) s = (Ok age, s) /\
          age < 0 /\
          age * us_per_day <= utcnow aws (world s) - created < (age + 1) * us_per_day /\
          forall threshold, 0 <= threshold -> (age >? threshold) = false) /\
    (forall text : string,
        fromisoformat py (replace_char "Z" "+00:00" text) = None ->
        exists message,
          get_resource_age aws py (DateStr text) s = (Raise (ValueError message), s)) /\
    (forall (text : string) (wall : Z),
        fromisoformat py (replace_char "Z" "+00:00" text) = Some (Naive wall) ->
        get_resource_age aws py (DateStr text) s
        = (Raise (TypeError "can't subtract offset-naive and offset-aware datetimes"), s)) /\
    (forall wall : Z,
        get_resource_age aws py (DateTime (Naive wall)) s
        = (Raise (TypeError "can't subtract offset-naive and offset-aware datetimes"), s)) /\
    (forall body : string,
        contains_char "Z" body = false ->
        get_resource_age aws py (DateStr (body ++ "Z")) s
        = get_resource_age aws py (DateStr (body ++ "+00:00")) s).
Proof.
  intros W aws py s. split; [| split; [| split; [| split]]].
  - intros created Hlt. exists ((utcnow aws (world s) - created) / us_per_day).
    split; [reflexivity |].
    rewrite us_per_day_value.
    pose proof (Z.div_mod (utcnow aws (world s) - created) 86400000000 ltac:(lia)) as Hdm.
    pose proof (Z.mod_pos_bound (utcnow aws (world s) - created) 86400000000 ltac:(lia))
      as Hmod.
    assert (Hneg : (utcnow aws (world s) - created) / 86400000000 < 0)
      by (apply Z.div_lt_upper_bound; lia).
    split; [exact Hneg |]. split; [lia |].
    intros threshold Hth. rewrite Z.gtb_ltb. apply Z.ltb_ge. lia.
  - intros text H. unfold get_resource_age. rewrite H. eexists. reflexivity.
  - intros text wall H. unfold get_resource_age. rewrite H. reflexivity.
  - intros wall. reflexivity.
  - intros body Hbody. unfold get_resource_age.
    rewrite !replace_char_app, (replace_char_absent _ _ _ Hbody). reflexivity.
Qed.

(** ** Steps 5 and 8: hours against the free tier *)

(** The compute estimate counts 720 hours for each reservation that the
    listing of running instances returns, however many instances it holds,
    and ignores the answer to the metric query: the warning appears exactly
    from two reservations on.  The database estimate counts 720 hours for
    each database instance whose status is "available": the warning appears
    exactly from two such instances on. *)
Theorem hour_estimates_warn_from_two :
  (forall (W : Type) (aws : Collaborator W) (summary : list string) (s : St W)
          (metrics : MetricStatistics) (w1 : W) (reservations : list Reservation) (w2 : W),
      let now := utcnow aws (world s) in
      respond aws (GetMetricStatistics "AWS/EC2" "CPUUtilization" []
                     (now - timedelta_days 30) now 86400 ["Average"]) (world s)
      = (Ok metrics, w1) ->
      respond aws (DescribeInstances [("instance-state-name", ["running"])]) w1
      = (Ok reservations, w2) ->
      let hours := str_of_Z (720 * Z.of_nat (length reservations)) in
      fst (step5 aws summary s)
      = Ok (now, now - timedelta_days 30,
            list_append summary
              (if (2 <=? length reservations)%nat
               then "⚠️ EC2 usage likely exceeds Free Tier (estimated " ++ hours ++ " hours)."
               else "EC2 usage within free-tier limits (" ++ hours ++ " hours est.)."))) /\
  (forall (W : Type) (aws : Collaborator W) (summary : list string) (s : St W)
          (rds_instances : list DBInstance) (w1 : W),
      respond aws DescribeDBInstances (world s) = (Ok rds_instances, w1) ->
      let active := filter (fun r => String.eqb (DBInstanceStatus r) "available")
                      rds_instances in
      let hours := str_of_Z (720 * Z.of_nat (length active)) in
      fst (step8 aws summary s)
      = Ok (list_append summary
              (if (2 <=? length active)%nat
               then "⚠️ RDS usage likely exceeds Free Tier (" ++ hours ++ " hours est.)."
               else "RDS usage within free tier (" ++ hours ++ " hours est.)."))).
Proof.
  split.
  - intros W aws summary s metrics w1 reservations w2 now H1 H2 hours.
    unfold step5, bind, now_utc, call, ret. cbn [world]. fold now.
    rewrite H1. cbn [world]. rewrite H2. cbn [fst]. do 3 f_equal.
    unfold ec2_usage_line. subst hours.
    replace (Z.of_nat (length reservations) * 24 * 30)
      with (720 * Z.of_nat (length reservations)) by ring.
    destruct (Nat.leb_spec 2 (length reservations)) as [Hn | Hn].
    + replace (720 * Z.of_nat (length reservations) >? 750) with true; [reflexivity |].
      symmetry. rewrite Z.gtb_ltb. apply Z.ltb_lt. lia.
    + replace (720 * Z.of_nat (length reservations) >? 750) with false; [reflexivity |].
      symmetry. rewrite Z.gtb_ltb. apply Z.ltb_ge. lia.
  - intros W aws summary s rds_instances w1 H active hours.
    unfold step8, bind, call, ret. rewrite H. cbn [fst]. rewrite length_map.
    fold active. do 2 f_equal. unfold rds_usage_line. subst hours.
    replace (Z.of_nat (length active) * 24 * 30)
      with (720 * Z.of_nat (length active)) by ring.
    destruct (Nat.leb_spec 2 (length active)) as [Hn | Hn].
    + replace (720 * Z.of_nat (length active) >? 750) with true; [reflexivity |].
      symmetry. rewrite Z.gtb_ltb. apply Z.ltb_lt. lia.
    + replace (720 * Z.of_nat (length active) >? 750) with false; [reflexivity |].
      symmetry. rewrite Z.gtb_ltb. apply Z.ltb_ge. lia.
Qed.

(** ** A metric answer without its list of data points *)

(** When the answer to a metric query has no ['Datapoints'] key, the Lambda
    check, which reads the key with a default, reports 0 invocations within
    the free tier; the bucket-size and CPU checks, which index the key,
    catch the [KeyError], log a warning that names the key, and leave their
    total and their list as they were. *)
Theorem metric_answer_without_datapoints :
  (forall (W : Type) (aws : Collaborator W) (start now : Z) (summary : list string)
          (s : St W) (w1 : W),
      respond aws (GetMetricStatistics "AWS/Lambda" "Invocations" []
                     start now 86400 ["Sum"]) (world s)
      = (Ok {| Datapoints := None |}, w1) ->
      fst (step7 aws start now summary s)
      = Ok (list_append summary "Lambda usage within free tier: 0 invocations.")) /\
  (forall (W : Type) (aws : Collaborator W) (start now : Z) (total_storage_gb : Q)
          (bucket : Bucket) (s : St W) (w1 : W),
      respond aws (GetMetricStatistics "AWS/S3" "BucketSizeBytes"
                     [("BucketName", Name bucket); ("StorageType", "StandardStorage")]
                     start now 86400 ["Average"]) (world s)
      = (Ok {| Datapoints := None |}, w1) ->
      fst (step6_bucket aws start now total_storage_gb bucket s) = Ok total_storage_gb /\
      log (snd (step6_bucket aws start now total_storage_gb bucket s))
      = list_append (log s)
          (WARNING, "Could not get S3 metrics for " ++ Name bucket ++ ": 'Datapoints'")) /\
  (forall (W : Type) (aws : Collaborator W) (cfg : Config) (start now : Z)
          (low_cpu_instances : list string) (instance : Instance) (s : St W) (w1 : W),
      respond aws (GetMetricStatistics "AWS/EC2" "CPUUtilization"
                     [("InstanceId", InstanceId instance)]
                     start now 86400 ["Average"]) (world s)
      = (Ok {| Datapoints := None |}, w1) ->
      fst (step13_instance aws cfg start now low_cpu_instances instance s)
      = Ok low_cpu_instances /\
      log (snd (step13_instance aws cfg start now low_cpu_instances instance s))
      = list_append (log s)
          (WARNING, "Could not get CPU metrics for " ++ InstanceId instance
                      ++ ": 'Datapoints'")).
Proof.
  split; [| split].
  - intros W aws start now summary s w1 H.
    unfold step7, bind, call, ret. rewrite H. reflexivity.
  - intros W aws start now total bucket s w1 H.
    unfold step6_bucket, try_except, bind, call, getitem, raise, logger, ret.
    rewrite H. split; reflexivity.
  - intros W aws cfg start now low instance s w1 H.
    unfold step13_instance, try_except, bind, call, getitem, raise, logger, ret.
    rewrite H. split; reflexivity.
Qed.

(** ** Step 6: sizing the buckets *)

(** Step 6 returns whatever the collaborator does.  It asks for the size of
    every bucket of the listing that step 4 obtained, once each and in that
    order (also of the buckets step 4 deleted since), issues nothing else,
    and records exactly one line. *)
Theorem step6_sizes_every_listed_bucket :
  forall (W : Type) (aws : Collaborator W) (buckets : list Bucket) (start now : Z)
         (summary : list string) (s : St W),
    calls (snd (step6 aws buckets start now summary s))
    = (calls s ++ map (fun bucket => issued (bucket_size_query start now bucket)) buckets)%list /\
    exists total_storage_gb s',
      step6 aws buckets start now summary s
      = (Ok (list_append summary (s3_usage_line total_storage_gb)), s').
Proof.
  intros W aws buckets start now summary s.
  assert (Hbody : forall total bucket, completes (step6_bucket aws start now total bucket)).
  { intros total bucket. unfold step6_bucket. apply completes_try_except. intros e.
    apply completes_bind; [apply completes_logger | intros _; apply completes_ret]. }
  destruct (for_each_chunks_total
              (fun bucket chunk => chunk = [issued (bucket_size_query start now bucket)])
              (step6_bucket aws start now) buckets)
    with (acc := 0%Q) (s := s) as (chunks & Hcalls & HF).
  - intros total bucket s0. eexists. split; [| reflexivity].
    unfold step6_bucket, bucket_size_query, try_except, bind, call, getitem, raise,
      logger, ret.
    destruct (respond aws _ (world s0)) as [[[[[| first rest] |]] | e] w1]; reflexivity.
  - exact Hbody.
  - destruct (completes_for_each buckets _ Hbody 0%Q s) as (total & s' & E).
    unfold step6, bind. rewrite E in *. cbn [snd] in Hcalls. unfold ret. cbn [snd].
    split; [| eexists _, _; reflexivity].
    rewrite Hcalls. f_equal.
    rewrite (concat_of_chunks (fun bucket => [issued (bucket_size_query start now bucket)])
               buckets chunks HF).
    clear. induction buckets as [| b rest IH]; [reflexivity |].
    cbn [flat_map map app]. rewrite IH. reflexivity.
Qed.

(** ** The further properties at work on the sample accounts *)

Lemma step1_terminates_stopped_instances_only_witness :
  respond Scenarios.sample_account (DescribeInstances []) tt
  = (Ok (Scenarios.Sample.answer _ (DescribeInstances [])), tt) /\
  exists ids,
    ids <> [] /\
    (forall id,
        In id ids
        <-> stopped_instance (Scenarios.Sample.answer _ (DescribeInstances [])) id) /\
    calls (snd (step1 Scenarios.sample_account [] (init tt)))
    = [issued (DescribeInstances []); issued (TerminateInstances ids)] /\
    ids = ["i-stopped"].
Proof.
  split; [reflexivity |].
  destruct (step1_terminates_stopped_instances_only unit Scenarios.sample_account []
              (init tt) (Scenarios.Sample.answer _ (DescribeInstances [])) tt eq_refl)
    as [(_ & Hrun) | (ids & Hne & Hids & Hcalls & _)].
  - vm_compute in Hrun. discriminate.
  - exists ids. split; [exact Hne |]. split; [exact Hids |].
    split; [exact Hcalls |].
    vm_compute in Hcalls. inversion Hcalls. reflexivity.
Defined.





Lemma step10_deletes_unused_groups_only_witness :
  respond Scenarios.sample_account DescribeSecurityGroups tt
  = (Ok (Scenarios.Sample.answer _ DescribeSecurityGroups), tt) /\
  respond Scenarios.sample_account (DescribeInstances []) tt
  = (Ok (Scenarios.Sample.answer _ (DescribeInstances [])), tt) /\
  exists chunks : list (list Issued),
    calls (snd (step10 Scenarios.sample_account [] (init tt)))
    = (calls (init tt)
         ++ [issued DescribeSecurityGroups; issued (DescribeInstances [])]
         ++ concat chunks)%list /\
    Forall2 (deletes_unused_group (Scenarios.Sample.answer _ (DescribeInstances [])))
      (Scenarios.Sample.answer _ DescribeSecurityGroups) chunks.
Proof.
  split; [reflexivity |]. split; [reflexivity |].
  exact (step10_deletes_unused_groups_only unit Scenarios.sample_account []
           (init tt) _ tt _ tt eq_refl eq_refl).
Defined.


Lemma step12_sets_missing_or_long_retention_only_witness :
  respond Scenarios.sample_account DescribeLogGroups tt
  = (Ok (Scenarios.Sample.answer _ DescribeLogGroups), tt) /\
  calls (snd (step12 Scenarios.sample_account [] (init tt)))
  = (calls (init tt) ++ issued DescribeLogGroups
       :: flat_map retention_calls (Scenarios.Sample.answer _ DescribeLogGroups))%list.
Proof.
  split; [reflexivity |].
  exact (proj1 (step12_sets_missing_or_long_retention_only unit Scenarios.sample_account
                  [] (init tt) _ tt eq_refl)).
Defined.

Lemma step15_costs_all_or_nothing_witness :
  respond MoreScenarios.keyless_cost_account
    (GetCostAndUsage (strftime_Ymd (Scenarios.t0 - timedelta_days 30))
       (strftime_Ymd Scenarios.t0)) tt
  = (Ok [ {| Groups := [ {| Keys := ["Amazon S3"]; BlendedCost_Amount := "3.25" |};
                         {| Keys := []; BlendedCost_Amount := "12.5" |} ] |} ], tt) /\
  exists e,
    step15 MoreScenarios.keyless_cost_account Scenarios.python Scenarios.t0 [] (init tt)
    = (Ok [],
       {| world := tt;
          calls := [issued (GetCostAndUsage "2025-10-05" "2025-11-04")];
          log := [(WARNING, "Could not retrieve cost data: " ++ str_exn e)] |}).
Proof.
  split; [reflexivity |].
  destruct (step15_costs_all_or_nothing unit MoreScenarios.keyless_cost_account
              Scenarios.python Scenarios.t0 [] (init tt) _ tt eq_refl)
    as [(_ & e & He) | (Hall & _)].
  - exists e. exact He.
  - exfalso. inversion Hall as [| ? ? Hgroups _]; subst.
    inversion Hgroups as [| ? ? _ Hrest]; subst.
    inversion Hrest as [| ? ? (service & others & cost & Hk & _) _]; subst.
    discriminate.
Defined.

Lemma unconfigured_topic_publishes_nothing_witness :
  SNS_TOPIC_ARN MoreScenarios.silent_config = "" /\
  issues (fun c => is_publish c = false)
    (lambda_handler Scenarios.sample_account Scenarios.python MoreScenarios.silent_config) /\
  exists r s' earlier,
    lambda_handler Scenarios.sample_account Scenarios.python MoreScenarios.silent_config
      (init tt) = (Ok r, s') /\
    log s' = list_append earlier
               (INFO, "No SNS topic configured; skipping notification.").
Proof.
  split; [reflexivity |].
  destruct (unconfigured_topic_publishes_nothing unit Scenarios.sample_account
              Scenarios.python MoreScenarios.silent_config eq_refl) as (Hissues & Hlog).
  split; [exact Hissues |].
  destruct (lambda_handler Scenarios.sample_account Scenarios.python
              MoreScenarios.silent_config (init tt)) as [[r | e] s'] eqn:E;
    [| vm_compute in E; discriminate].
  destruct (Hlog (init tt) s' r E) as (earlier & Hearlier).
  exists r, s', earlier. split; [reflexivity | exact Hearlier].
Defined.

Lemma mute_account_refuses_publish :
  forall (message subject : string) (w : unit),
    exists e w',
      respond MoreScenarios.mute_account
        (Publish (SNS_TOPIC_ARN default_config) message subject) w = (Raise e, w').
Proof. intros message subject w. eexists _, _. reflexivity. Defined.

Lemma refused_publish_aborts_the_run_witness :
  String.eqb (SNS_TOPIC_ARN default_config) "" = false /\
  exists e s',
    lambda_handler MoreScenarios.mute_account Scenarios.python default_config (init tt)
    = (Raise e, s').
Proof.
  split; [reflexivity |].
  exact (refused_publish_aborts_the_run unit MoreScenarios.mute_account Scenarios.python
           default_config eq_refl mute_account_refuses_publish (init tt)).
Defined.

Lemma age_at_the_edges_witness :
  utcnow Scenarios.empty_account tt < Scenarios.t0 + 1 /\
  exists age,
    get_resource_age Scenarios.empty_account Scenarios.python
      (DateTime (Aware (Scenarios.t0 + 1))) (init tt) = (Ok age, init tt) /\
    age = -1.
Proof.
  assert (H : utcnow Scenarios.empty_account (world (init tt)) < Scenarios.t0 + 1)
    by (vm_compute; reflexivity).
  split; [exact H |].
  destruct (proj1 (age_at_the_edges unit Scenarios.empty_account Scenarios.python (init tt))
              (Scenarios.t0 + 1) H) as (age & Hage & _).
  exists age. split; [exact Hage |].
  vm_compute in Hage. inversion Hage. reflexivity.
Defined.

Lemma hour_estimates_warn_from_two_witness :
  respond Scenarios.sample_account DescribeDBInstances tt
  = (Ok (Scenarios.Sample.answer _ DescribeDBInstances), tt) /\
  fst (step8 Scenarios.sample_account [] (init tt))
  = Ok ["RDS usage within free tier (720 hours est.)."].
Proof.
  split; [reflexivity |].
  exact (proj2 hour_estimates_warn_from_two unit Scenarios.sample_account []
           (init tt) _ tt eq_refl).
Defined.

Lemma metric_answer_without_datapoints_witness :
  respond MoreScenarios.bare_metrics_account
    (GetMetricStatistics "AWS/Lambda" "Invocations" []
       (Scenarios.days_ago 30) Scenarios.t0 86400 ["Sum"]) tt
  = (Ok {| Datapoints := None |}, tt) /\
  fst (step7 MoreScenarios.bare_metrics_account (Scenarios.days_ago 30) Scenarios.t0 []
         (init tt))
  = Ok ["Lambda usage within free tier: 0 invocations."].
Proof.
  split; [reflexivity |].
  exact (proj1 metric_answer_without_datapoints unit MoreScenarios.bare_metrics_account
           (Scenarios.days_ago 30) Scenarios.t0 [] (init tt) tt eq_refl).
Defined.
